(** * vaping: the fping probe plugin (vaping/plugins/fping.py)

    A shallow embedding of [FPingBase] and [FPing]: the host resolver
    ([hosts_args]), the dialect detector ([detect_fping_version]), the
    line parser ([parse_verbose]), the process runner ([_run_proc]) and
    the probe cycle ([probe]), with the properties the design document
    states about them.

    Conventions of the model.
    - A Python [str] is a [string]; each [ascii] stands for the code point
      of the same number (code points below 256).
    - Python [int] is [Z].  A Python [float] that comes from the output of
      fping (a sample, and what [min], [max] and [sum] make of samples) is
      a binary64 value, [PrimFloat.float], with its rounding, its
      infinities and its nan.  The loss, the quotient of two ints, is kept
      as their exact quotient in [Q] (the double differs from it by one
      rounding).
    - An exception is an explicit [Raises e] outcome; [try]/[except] is a
      match on the outcome.
    - Logging is a writer: every computation returns the entries it logged,
      in order, next to its outcome. *)

From Stdlib Require Import String Ascii List ZArith NArith QArith Bool Lia.
From Stdlib Require Import DecimalString.
From Stdlib Require DecimalPos DecimalZ.
From Stdlib Require PrimFloat FloatOps SpecFloat.
Import ListNotations.
Close Scope Q_scope.
Open Scope string_scope.
Open Scope list_scope.

(** ** Python built-ins on [str] *)

Module PyStr.

(** [str.isspace] on one character (code points below 256): TAB..CR,
    FS..US, SPACE, NEL and NBSP. *)
Definition is_space (c : ascii) : bool :=
  let n := N_of_ascii c in
  ((9 <=? n) && (n <=? 13) || (28 <=? n) && (n <=? 31) || (n =? 32)
   || (n =? 133) || (n =? 160))%N.

Definition is_empty (s : string) : bool :=
  match s with EmptyString => true | String _ _ => false end.

(** [s.lstrip(chars)], [s.rstrip(chars)] and [s.strip(chars)] with the
    character class given as a predicate. *)
Fixpoint lstrip_by (p : ascii -> bool) (s : string) : string :=
  match s with
  | EmptyString => EmptyString
  | String c r => if p c then lstrip_by p r else s
  end.

Fixpoint rstrip_by (p : ascii -> bool) (s : string) : string :=
  match s with
  | EmptyString => EmptyString
  | String c r =>
      let r' := rstrip_by p r in
      if p c && is_empty r' then EmptyString else String c r'
  end.

Definition strip_by (p : ascii -> bool) (s : string) : string :=
  lstrip_by p (rstrip_by p s).

(** [s.strip()] *)
Definition strip (s : string) : string := strip_by is_space s.

(** [s[n:]] *)
Fixpoint drop (n : nat) (s : string) : string :=
  match n, s with
  | O, _ => s
  | S _, EmptyString => EmptyString
  | S k, String _ r => drop k r
  end.

(** Puts a character in front of the first piece of a split. *)
Definition cons_head (c : ascii) (l : list string) : list string :=
  match l with
  | [] => [String c EmptyString]
  | w :: ws => String c w :: ws
  end.

(** [s.split(sep)] for a non-empty [sep]: the pieces between the
    occurrences of [sep], found from the left and not overlapping.
    [skip] counts the characters of a matched separator still to pass. *)
Fixpoint split_from (sep s : string) (skip : nat) : list string :=
  match s with
  | EmptyString => [EmptyString]
  | String c r =>
      match skip with
      | S k => split_from sep r k
      | O =>
          if prefix sep s
          then EmptyString :: split_from sep r (String.length sep - 1)
          else cons_head c (split_from sep r 0)
      end
  end.

Definition split (sep s : string) : list string := split_from sep s 0.

(** The pieces between the characters of a class, empty pieces kept. *)
Fixpoint pieces (p : ascii -> bool) (s : string) : list string :=
  match s with
  | EmptyString => [EmptyString]
  | String c r =>
      if p c then EmptyString :: pieces p r else cons_head c (pieces p r)
  end.

(** [s.split()]: the maximal runs of characters that are not whitespace. *)
Definition split_ws (s : string) : list string :=
  filter (fun w => negb (is_empty w)) (pieces is_space s).

(** [s.partition(sep)] when [sep] occurs: what is before and what is after
    its first occurrence; [None] when it does not occur. *)
Fixpoint partition (sep s : string) : option (string * string) :=
  if prefix sep s then Some (EmptyString, drop (String.length sep) s)
  else
    match s with
    | EmptyString => None
    | String c r =>
        match partition sep r with
        | Some (a, b) => Some (String c a, b)
        | None => None
        end
    end.

(** [sub in s] *)
Fixpoint contains (sub s : string) : bool :=
  prefix sub s
  || match s with
     | EmptyString => false
     | String _ r => contains sub r
     end.

(** ["%d" % n] *)
Definition format_d (n : Z) : string := NilZero.string_of_int (Z.to_int n).

End PyStr.

(** ** Exceptions, outcomes and the log *)

Inductive exn : Type :=
| FileNotFoundError
| OSError
| ValueError
| KeyError
| IndexError
| ZeroDivisionError
| UnicodeDecodeError.

Inductive outcome (A : Type) : Type :=
| Returns (a : A)
| Raises (e : exn).
Arguments Returns {A} a.
Arguments Raises {A} e.

Definition obind {A B} (o : outcome A) (f : A -> outcome B) : outcome B :=
  match o with
  | Returns a => f a
  | Raises e => Raises e
  end.

Inductive level : Type := DEBUG | WARNING | ERROR | CRITICAL.

(** A log entry: its level and the fixed part of its message (the values
    interpolated into the message are left out). *)
Definition log_entry : Type := (level * string)%type.

(** A computation that logs: the entries written, then the outcome. *)
Definition Prog (A : Type) : Type := (list log_entry * outcome A)%type.

Definition ret {A} (a : A) : Prog A := ([], Returns a).
Definition throw {A} (e : exn) : Prog A := ([], Raises e).
Definition log (l : level) (msg : string) : Prog unit := ([(l, msg)], Returns tt).

Definition bind {A B} (m : Prog A) (f : A -> Prog B) : Prog B :=
  match m with
  | (l1, Returns a) => let (l2, r) := f a in (l1 ++ l2, r)
  | (l1, Raises e) => (l1, Raises e)
  end.

(** [try: m except ...: h e] *)
Definition try_except {A} (m : Prog A) (h : exn -> Prog A) : Prog A :=
  match m with
  | (l1, Returns a) => (l1, Returns a)
  | (l1, Raises e) => let (l2, r) := h e in (l1 ++ l2, r)
  end.

Definition logged {A} (m : Prog A) : list log_entry := fst m.
Definition result {A} (m : Prog A) : outcome A := snd m.

Declare Scope prog_scope.
Delimit Scope prog_scope with prog.
Notation "x <- m ;; k" := (bind m (fun x => k))
  (at level 61, m at next level, right associativity) : prog_scope.
Notation "m ;;; k" := (bind m (fun _ => k))
  (at level 61, right associativity) : prog_scope.
Notation "x <~ o ;; k" := (obind o (fun x => k))
  (at level 61, o at next level, right associativity) : prog_scope.

(** ** Python values and dicts *)

Abbreviation float := PrimFloat.float.

(** [VFloat] holds the loss, [VDouble] a float made from samples. *)
Inductive pyval : Type :=
| VStr (s : string)
| VInt (n : Z)
| VFloat (x : Q)
| VDouble (x : float)
| VList (l : list float).

(** A [dict] with [str] keys, in insertion order. *)
Definition dict : Type := list (string * pyval).

Fixpoint dict_get (k : string) (d : dict) : option pyval :=
  match d with
  | [] => None
  | (k', v) :: r => if String.eqb k k' then Some v else dict_get k r
  end.

(** [d[k] = v] *)
Fixpoint dict_set (k : string) (v : pyval) (d : dict) : dict :=
  match d with
  | [] => [(k, v)]
  | (k', v') :: r =>
      if String.eqb k k' then (k, v) :: r else (k', v') :: dict_set k v r
  end.

(** Truth value of a dict and of a list: non-empty. *)
Definition truthy {A} (l : list A) : bool :=
  match l with [] => false | _ :: _ => true end.

(** ** Python built-ins on numbers *)

Module PyNum.

(** [min(l)] on floats: the first element is kept until an element is
    less than it ([item < best]); with a nan nothing compares. *)
Definition min_from (x : float) (r : list float) : float :=
  fold_left (fun best y => if PrimFloat.ltb y best then y else best) r x.

Definition py_min (l : list float) : outcome float :=
  match l with
  | [] => Raises ValueError
  | x :: r => Returns (min_from x r)
  end.

(** [max(l)] on floats: replaced when an element is greater
    ([item > best]). *)
Definition max_from (x : float) (r : list float) : float :=
  fold_left (fun best y => if PrimFloat.ltb best y then y else best) r x.

Definition py_max (l : list float) : outcome float :=
  match l with
  | [] => Raises ValueError
  | x :: r => Returns (max_from x r)
  end.

(** [x / y] for the loss, on exact quotients. *)
Definition truediv (x y : Q) : outcome Q :=
  if Qeq_bool y 0%Q then Raises ZeroDivisionError else Returns (x / y)%Q.

(** [float(n)] for the loss. *)
Definition float_of_int (n : Z) : Q := inject_Z n.

(** [float(n)] as a double: the nearest one, ties to even (an int beyond
    the doubles gives infinity here, Python raises [OverflowError]). *)
Definition double_of_int (n : Z) : float :=
  FloatOps.SF2Prim (SpecFloat.binary_normalize FloatOps.prec FloatOps.emax n 0 false).

(** [x / n] for a float and an int. *)
Definition truediv_int (x : float) (n : Z) : outcome float :=
  if (n =? 0)%Z then Raises ZeroDivisionError
  else Returns (PrimFloat.div x (double_of_int n)).

(** [l[-1]] *)
Definition last_item (l : list float) : outcome float :=
  match l with
  | [] => Raises IndexError
  | x :: r => Returns (last r x)
  end.

Definition len {A} (l : list A) : Z := Z.of_nat (length l).

End PyNum.

(** ** FPingBase *)

(** A row of the configured hosts list: an address, or a dict that holds
    the address under ["host"], next to other keys. *)
Inductive row : Type :=
| RowStr (address : string)
| RowDict (entry : list (string * string)).

Fixpoint row_get (k : string) (d : list (string * string)) : outcome string :=
  match d with
  | [] => Raises KeyError
  | (k', v) :: r => if String.eqb k k' then Returns v else row_get k r
  end.

(** The attributes of a probe instance that the methods read. *)
Record FPingBase : Type := {
  command : string;
  count : Z;
  period : Z;
  _fping_version : Z;
  hosts : list row
}.

Import PyStr PyNum.
Local Open Scope prog_scope.

Section Parser.

(** [float(s)] for a str: the value, or [None] for [ValueError]. *)
Variable py_float : string -> option float.

(** [sum(l)] for a list of floats (how it rounds depends on the version of
    the interpreter). *)
Variable py_sum : list float -> float.

(** The loop of [parse_verbose] over the tokens. *)
Fixpoint parse_times (pings : list string) (times : list float)
    : outcome (list float) :=
  match pings with
  | [] => Returns times
  | latency :: rest =>
      if String.eqb latency "-" then parse_times rest times
      else
        match py_float latency with
        | Some t => parse_times rest (times ++ [t])
        | None => Raises ValueError
        end
  end.

(** [parse_verbose] from the token list on: what follows
    [pings = pings.strip().split(" ")]. *)
Definition parse_tokens (host : string) (pings : list string) : outcome dict :=
  let cnt := len pings in
  times <~ parse_times pings [] ;;
  let lost := (cnt - len times)%Z in
  loss <~ (if negb (lost =? 0)%Z
           then truediv (float_of_int lost) (float_of_int cnt)
           else Returns 0%Q) ;;
  let rv := [ ("host", VStr (strip host));
              ("cnt", VInt cnt);
              ("loss", VFloat loss);
              ("data", VList times) ] in
  if truthy times then
    mn <~ py_min times ;;
    let rv := dict_set "min" (VDouble mn) rv in
    mx <~ py_max times ;;
    let rv := dict_set "max" (VDouble mx) rv in
    avg <~ truediv_int (py_sum times) (len times) ;;
    let rv := dict_set "avg" (VDouble avg) rv in
    lst <~ last_item times ;;
    let rv := dict_set "last" (VDouble lst) rv in
    Returns rv
  else Returns rv.

(** The body of the [try] of [parse_verbose]. *)
Definition parse_verbose_try (line : string) : outcome dict :=
  match split " : " line with
  | [host; pings] => parse_tokens host (split " " (strip pings))
  | _ => Raises ValueError
  end.

Definition parse_verbose (line : string) : Prog (option dict) :=
  try_except
    (log DEBUG line ;;;
     match parse_verbose_try line with
     | Returns rv => ret (Some rv)
     | Raises e => throw e
     end)
    (fun _ => log ERROR "Failed to parse fping line" ;;; ret None).

End Parser.

(** ** The process collaborator *)

(** One line read from the pipe: bytes that decode to a str, or bytes that
    are not valid UTF-8. *)
Inductive raw_line : Type :=
| Utf8 (s : string)
| NotUtf8.

(** A launched process: the lines its output yields, the exception a read
    raises after them (if any), and its exit code. *)
Record process : Type := {
  stdout : list raw_line;
  stdout_error : option exn;
  returncode : Z
}.

(** [self.popen(args, ...)]: a process, or the exception of the launch. *)
Definition popen_t : Type := list string -> outcome process.

(** [line.decode("utf-8")] *)
Definition decode (b : raw_line) : outcome string :=
  match b with
  | Utf8 s => Returns s
  | NotUtf8 => Raises UnicodeDecodeError
  end.

(** [proc.communicate()[0].decode("utf-8")] *)
Fixpoint communicate_decode (out : list raw_line) (err : option exn) : outcome string :=
  match out with
  | [] => match err with Some e => Raises e | None => Returns EmptyString end
  | b :: r =>
      tl <~ communicate_decode r err ;;
      hd <~ decode b ;;
      Returns (hd ++ tl)%string
  end.

Definition lift {A} (o : outcome A) : Prog A := ([], o).

Section Probe.

Variable py_float : string -> option float.
Variable py_sum : list float -> float.
Variable popen : popen_t.

Definition detect_fping_version (self : FPingBase) : Prog Z :=
  try_except
    (let args := [command self; "-v"] in
     proc <- lift (popen args) ;;
     version_out <- lift (communicate_decode (stdout proc) (stdout_error proc)) ;;
     if contains "fping: Version 5" version_out then ret 5%Z
     else ret 4%Z)
    (fun e =>
       match e with
       | FileNotFoundError =>
           log CRITICAL "fping command not found." ;;; throw e
       | _ =>
           log ERROR "Failed to detect fping version. Defaulting to version 4." ;;;
           ret 4%Z
       end).

Fixpoint collect_hosts (rows : list row) (host_args : list string) : outcome (list string) :=
  match rows with
  | [] => Returns host_args
  | RowStr address :: rest => collect_hosts rest (host_args ++ [address])
  | RowDict entry :: rest =>
      address <~ row_get "host" entry ;;
      collect_hosts rest (host_args ++ [address])
  end.

Fixpoint dedupe_loop (host_args dedupe : list string) : list string :=
  match host_args with
  | [] => dedupe
  | each :: rest =>
      if existsb (String.eqb each) dedupe then dedupe_loop rest dedupe
      else dedupe_loop rest (dedupe ++ [each])
  end.

Definition hosts_args (self : FPingBase) : outcome (list string) :=
  host_args <~ collect_hosts (hosts self) [] ;;
  Returns (dedupe_loop host_args []).

(** The argument list [_run_proc] builds. *)
Definition run_args (self : FPingBase) : outcome (list string) :=
  let args := [ command self;
                "-u";
                ("-C" ++ format_d (count self))%string;
                ("-p" ++ format_d (period self))%string;
                "-e" ] in
  let args := if (_fping_version self =? 5)%Z then args ++ ["-q"] else args in
  resolved <~ hosts_args self ;;
  Returns (args ++ resolved).

(** Truth value of what [parse_verbose] returns. *)
Definition truthy_result (parsed_data : option dict) : bool :=
  match parsed_data with
  | None => false
  | Some rv => truthy rv
  end.

(** The loop of [_run_proc] over the lines of the pipe. *)
Fixpoint read_lines (out : list raw_line) (err : option exn)
    (data : list (option dict)) : Prog (list (option dict)) :=
  match out with
  | [] => match err with Some e => throw e | None => ret data end
  | line :: rest =>
      decoded_line <- lift (decode line) ;;
      parsed_data <- parse_verbose py_float py_sum decoded_line ;;
      if truthy_result parsed_data
      then read_lines rest err (data ++ [parsed_data])
      else read_lines rest err data
  end.

Definition _run_proc (self : FPingBase) : Prog (list (option dict)) :=
  args <- lift (run_args self) ;;
  log DEBUG "Running fping command" ;;;
  try_except
    (proc <- lift (popen args) ;;
     data <- read_lines (stdout proc) (stdout_error proc) [] ;;
     (if negb (returncode proc =? 0)%Z
      then log WARNING "fping process exited with code"
      else ret tt) ;;;
     ret data)
    (fun e =>
       match e with
       | FileNotFoundError =>
           log CRITICAL "fping command not found during execution." ;;;
           throw e
       | _ =>
           log ERROR "Error running or processing fping" ;;;
           ret []
       end).

(** ** FPing *)

(** A message: what [new_message()] made, and its ["data"] entry. *)
Record message : Type := {
  envelope : dict;
  data : list (option dict)
}.

Definition is_not_None (d : option dict) : bool :=
  match d with Some _ => true | None => false end.

Definition probe (new_message : dict) (self : FPingBase) : Prog (option message) :=
  proc_data <- _run_proc self ;;
  let msg := {| envelope := new_message; data := filter is_not_None proc_data |} in
  if truthy (data msg) then ret (Some msg)
  else
    log WARNING "No valid data returned from fping process." ;;;
    ret None.

End Probe.

(** ** Predicates used to state the properties *)

Section Tokens.

Variable py_float : string -> option float.
Variable py_sum : list float -> float.

(** A token the loop of [parse_verbose] passes: the sentinel or a number. *)
Definition accepted (t : string) : bool :=
  String.eqb t "-" || match py_float t with Some _ => true | None => false end.

(** The numeric samples of a token list, in token order. *)
Definition samples_of (tokens : list string) : list float :=
  flat_map (fun t =>
              if String.eqb t "-" then []
              else match py_float t with Some x => [x] | None => [] end)
           tokens.

(** The records of the lines that parse, in line order. *)
Definition parsed_records (out : list raw_line) : list (option dict) :=
  flat_map (fun b =>
              match b with
              | Utf8 s =>
                  match result (parse_verbose py_float py_sum s) with
                  | Returns (Some rv) => [Some rv]
                  | _ => []
                  end
              | NotUtf8 => []
              end)
           out.

(** The entries a record has besides the first four, by its samples. *)
Definition stats_record (times : list float) : dict :=
  match times with
  | [] => []
  | x :: r =>
      [ ("min", VDouble (min_from x r));
        ("max", VDouble (max_from x r));
        ("avg", VDouble (PrimFloat.div (py_sum times) (double_of_int (len times))));
        ("last", VDouble (last r x)) ]
  end.

End Tokens.

Definition is_sentinel (t : string) : bool := String.eqb t "-".

(** The loss [parse_verbose] computes from the count and the samples. *)
Definition loss_of (cnt : Z) (times : list float) : Q :=
  if (cnt - len times =? 0)%Z then 0%Q
  else (float_of_int (cnt - len times) / float_of_int cnt)%Q.

(** The four entries every record has. *)
Definition base_record (host : string) (cnt : Z) (times : list float) : dict :=
  [ ("host", VStr (strip host));
    ("cnt", VInt cnt);
    ("loss", VFloat (loss_of cnt times));
    ("data", VList times) ].

(** The samples are totally ordered by [<=]: any two compare, [<=] is the
    negation of [>] and is transitive.  A list that holds a nan is not. *)
Definition ordered (l : list float) : bool :=
  forallb (fun x =>
    forallb (fun y =>
      Bool.eqb (PrimFloat.leb x y) (negb (PrimFloat.ltb y x))
      && (PrimFloat.leb x y || PrimFloat.leb y x)
      && forallb (fun z =>
           implb (PrimFloat.leb x y && PrimFloat.leb y z) (PrimFloat.leb x z))
         l)
    l)
  l.

Definition decodable (b : raw_line) : bool :=
  match b with Utf8 _ => true | NotUtf8 => false end.

(** The same process, exiting with another code. *)
Definition exit_with (rc : Z) (p : process) : process :=
  {| stdout := stdout p; stdout_error := stdout_error p; returncode := rc |}.

Definition space_char (c : ascii) : bool := Ascii.eqb " " c.

Fixpoint all_chars (p : ascii -> bool) (s : string) : bool :=
  match s with
  | EmptyString => true
  | String c r => p c && all_chars p r
  end.

Definition not_space (c : ascii) : bool := negb (is_space c).

Definition not_in (acc : list string) (y : string) : bool :=
  negb (existsb (String.eqb y) acc).

(** ** The design document's wording, as definitions *)

Module Design.

Section LineParser.

Variable py_float : string -> option float.
Variable py_sum : list float -> float.

(** The record of a host and a token list: no result when a token is
    neither the sentinel nor a number; the count is the number of tokens,
    the samples are the numeric tokens, then the loss and, with samples,
    the four statistics. *)
Definition record (host : string) (tokens : list string) : option dict :=
  if forallb (accepted py_float) tokens then
    let samples := samples_of py_float tokens in
    Some ([ ("host", VStr host);
            ("cnt", VInt (len tokens));
            ("loss", VFloat (loss_of (len tokens) samples));
            ("data", VList samples) ]
          ++ stats_record py_sum samples)
  else None.

(** Line Parser, with the tokenizer as a parameter: split on the first
    occurrence of the separator; the left side, trimmed, is the host; the
    right side, trimmed and tokenized, is the token list. *)
Definition line_parser_with (tokenize : string -> list string) (line : string)
    : option dict :=
  match partition " : " line with
  | None => None
  | Some (lhs, rhs) => record (strip lhs) (tokenize (strip rhs))
  end.

(** Line Parser: the right side is split on whitespace. *)
Definition line_parser (line : string) : option dict :=
  line_parser_with split_ws line.

End LineParser.

(** Host Resolver: each distinct address once, at its first occurrence. *)
Fixpoint first_seen (l : list string) : list string :=
  match l with
  | [] => []
  | x :: r => x :: filter (fun y => negb (String.eqb y x)) (first_seen r)
  end.

(** The address of a host entry. *)
Definition address_of (r : row) : option string :=
  match r with
  | RowStr a => Some a
  | RowDict d =>
      match row_get "host" d with Returns a => Some a | Raises _ => None end
  end.

End Design.

(** ** A float parser for the decimal notation

    [float(s)] restricted to what fping prints and to the special values:
    surrounding whitespace, an optional sign, then digits with an optional
    fraction, or [nan], [inf], [infinity].  The value of a numeral is the
    quotient of two ints, the nearest double for the short numerals of
    fping.  The other notations of Python ([1e3], [1_000], [NaN]) are
    refused by this instance. *)

Module DecimalFloat.

(** The whitespace this parser strips around the number. *)
Definition is_float_space (c : ascii) : bool :=
  let n := N_of_ascii c in
  ((9 <=? n) && (n <=? 13) || (n =? 32) || (n =? 133) || (n =? 160))%N.

Definition digit_of (c : ascii) : option N :=
  let n := N_of_ascii c in
  if ((48 <=? n) && (n <=? 57))%N then Some (n - 48)%N else None.

Fixpoint digits (s : string) (acc : N) : option N :=
  match s with
  | EmptyString => Some acc
  | String c r =>
      match digit_of c with
      | Some d => digits r (10 * acc + d)%N
      | None => None
      end
  end.

Definition unsigned_decimal (w : string) : option float :=
  match partition "." w with
  | None =>
      if is_empty w then None
      else option_map (fun n => double_of_int (Z.of_N n)) (digits w 0)
  | Some (a, b) =>
      if is_empty a && is_empty b then None
      else
        match digits a 0, digits b 0 with
        | Some x, Some y =>
            let scale := (10 ^ Z.of_nat (String.length b))%Z in
            Some (PrimFloat.div (double_of_int (Z.of_N x * scale + Z.of_N y))
                                (double_of_int scale))
        | _, _ => None
        end
  end.

Definition unsigned_float (w : string) : option float :=
  if String.eqb w "nan" then Some PrimFloat.nan
  else if String.eqb w "inf" || String.eqb w "infinity" then Some PrimFloat.infinity
  else unsigned_decimal w.

Definition signed_decimal (w : string) : option float :=
  match w with
  | EmptyString => None
  | String c r =>
      if Ascii.eqb c "+" then unsigned_float r
      else if Ascii.eqb c "-" then option_map PrimFloat.opp (unsigned_float r)
      else unsigned_float w
  end.

Definition decimal_float (s : string) : option float :=
  signed_decimal (strip_by is_float_space s).

(** [sum(l)] as the additions from 0, left to right. *)
Definition naive_sum (l : list float) : float :=
  fold_left PrimFloat.add l PrimFloat.zero.

(** The value this parser gives to a numeral ([nan] when it refuses it). *)
Definition sample (s : string) : float :=
  match decimal_float s with
  | Some x => x
  | None => PrimFloat.nan
  end.

End DecimalFloat.

(** ** Concrete inputs *)

Module Examples.

Import DecimalFloat.

Definition line_ok : string := "host : 1.2 - 3.4".
Definition line_two_spaces : string := "h : -  -".

Definition record_ok : dict :=
  [ ("host", VStr "host"); ("cnt", VInt 3); ("loss", VFloat (1 # 3));
    ("data", VList [sample "1.2"; sample "3.4"]);
    ("min", VDouble (sample "1.2")); ("max", VDouble (sample "3.4"));
    ("avg", VDouble (PrimFloat.div (PrimFloat.add (sample "1.2") (sample "3.4"))
                                   PrimFloat.two));
    ("last", VDouble (sample "3.4")) ].

(** A line with a nan, and a line whose float sum rounds up. *)
Definition line_nan : string := "h : nan 1.0".
Definition line_tenths : string := "h : 0.1 0.1 0.1".

(** A process whose second line is not valid UTF-8 and that exits with
    code 1. *)
Definition popen_bad_bytes_exit1 : popen_t :=
  fun _ => Returns {| stdout := [Utf8 line_ok; NotUtf8];
                      stdout_error := None;
                      returncode := 1 |}.

Definition self_v5 : FPingBase :=
  {| command := "fping"; count := 5; period := 20; _fping_version := 5;
     hosts := [ RowStr "a"; RowDict [("name", "B"); ("host", "b")];
                RowStr "a"; RowStr "c" ] |}.

(** A process that prints one good line and one bad line, then exits with
    the given code. *)
Definition popen_lines (rc : Z) : popen_t :=
  fun _ => Returns {| stdout := [Utf8 line_ok; Utf8 line_two_spaces];
                      stdout_error := None;
                      returncode := rc |}.

(** A process that prints nothing that parses. *)
Definition popen_junk : popen_t :=
  fun _ => Returns {| stdout := [Utf8 "usage: fping [options] [targets...]"];
                      stdout_error := None;
                      returncode := 0 |}.

(** [fping -v] of a version 5 binary. *)
Definition popen_version5 : popen_t :=
  fun _ => Returns {| stdout := [Utf8 "fping: Version 5.1"];
                      stdout_error := None;
                      returncode := 0 |}.

End Examples.

(** ** FPing.init and FPingBase.__init__ *)

(** One group of the configuration: its ["hosts"] entry, when it has one. *)
Definition group_config : Type := option (list row).

(** [group_config.get("hosts", [])] *)
Definition group_hosts (g : group_config) : list row :=
  match g with
  | Some l => l
  | None => []
  end.

Definition with_hosts (hs : list row) (self : FPingBase) : FPingBase :=
  {| command := command self; count := count self; period := period self;
     _fping_version := _fping_version self; hosts := hs |}.

Definition with_version (v : Z) (self : FPingBase) : FPingBase :=
  {| command := command self; count := count self; period := period self;
     _fping_version := v; hosts := hosts self |}.

(** The loop of [init] over [self.groups.items()]. *)
Fixpoint extend_hosts (groups : list (string * group_config)) (hs : list row)
    : list row :=
  match groups with
  | [] => hs
  | (_, g) :: rest => extend_hosts rest (hs ++ group_hosts g)
  end.

(** [FPing.init]: [self.hosts] starts again from the empty list. *)
Definition init (groups : list (string * group_config)) (self : FPingBase)
    : FPingBase :=
  with_hosts (extend_hosts groups []) self.

(** The entries of [self.config] that [__init__] reads. *)
Record FPingSchema : Type := {
  cfg_command : string;
  cfg_count : Z;
  cfg_period : Z
}.

(** The defaults of the schema. *)
Definition schema_defaults : FPingSchema :=
  {| cfg_command := "fping"; cfg_count := 5; cfg_period := 20 |}.

(** How [__init__] ends: with an instance, with its own [RuntimeError], or
    with an exception of the detection. *)
Inductive construction : Type :=
| Constructed (self : FPingBase)
| RaisesRuntimeError
| DetectionRaises (e : exn).

(** [not which(command)]: [which] gives a path or [None]. *)
Definition not_found (path : option string) : bool :=
  match path with
  | None => true
  | Some s => is_empty s
  end.

(** [FPingBase.__init__], after [super().__init__] has stored the config.
    The attributes not set yet hold 0 and the empty list. *)
Definition __init__ (which : string -> option string) (popen : popen_t)
    (config : FPingSchema) : list log_entry * construction :=
  if not_found (which (cfg_command config)) then
    ([(CRITICAL, "missing fping, install it or set `command` in the fping config")],
     RaisesRuntimeError)
  else
    let self := {| command := cfg_command config;
                   count := cfg_count config;
                   period := cfg_period config;
                   _fping_version := 0;
                   hosts := [] |} in
    match detect_fping_version popen self with
    | (l, Returns v) =>
        (l ++ [(DEBUG, "Detected fping version")],
         Constructed (with_version v self))
    | (l, Raises e) => (l, DetectionRaises e)
    end.

(** ** More predicates and inputs *)

Definition LF : string := String "010" EmptyString.

(** [int(s)] for a decimal numeral, as ["%d"] writes it. *)
Definition parse_d (s : string) : option Z :=
  option_map Z.of_int (NilZero.int_of_string s).

Definition not_sentinel (t : string) : bool := negb (is_sentinel t).

(** The levels the line parser logs at. *)
Definition debug_or_error (e : log_entry) : Prop :=
  fst e = DEBUG \/ fst e = ERROR.

(** The address lists of the groups, group by group. *)
Definition group_addresses (g : string * group_config) : list (option string) :=
  map Design.address_of (group_hosts (snd g)).

Module Inputs.

Import DecimalFloat.

Definition line_padded : string := "10.0.0.1   : 0.52 - 0.48 -".

Definition record_padded : dict :=
  [ ("host", VStr "10.0.0.1"); ("cnt", VInt 4); ("loss", VFloat (2 # 4));
    ("data", VList [sample "0.52"; sample "0.48"]);
    ("min", VDouble (sample "0.48")); ("max", VDouble (sample "0.52"));
    ("avg", VDouble (PrimFloat.div (PrimFloat.add (sample "0.52") (sample "0.48"))
                                   PrimFloat.two));
    ("last", VDouble (sample "0.48")) ].

Definition line_all_lost : string := "host : - - -".

(** The samples of [Examples.line_ok] between two lost probes. *)
Definition line_mixed : string := "host : - 1.2 3.4 -".

Definition record_mixed : dict :=
  [ ("host", VStr "host"); ("cnt", VInt 4); ("loss", VFloat (2 # 4));
    ("data", VList [sample "1.2"; sample "3.4"]);
    ("min", VDouble (sample "1.2")); ("max", VDouble (sample "3.4"));
    ("avg", VDouble (PrimFloat.div (PrimFloat.add (sample "1.2") (sample "3.4"))
                                   PrimFloat.two));
    ("last", VDouble (sample "3.4")) ].

Definition groups_two : list (string * group_config) :=
  [ ("public", Some [RowStr "a"; RowStr "b"]);
    ("empty", None);
    ("private", Some [RowDict [("host", "b"); ("name", "B")]; RowStr "c"]) ].

Definition self_v4 : FPingBase :=
  {| command := "fping"; count := 3; period := 10; _fping_version := 4;
     hosts := [RowStr "a"; RowDict [("name", "no address")]] |}.

Definition which_found : string -> option string :=
  fun c => Some ("/usr/bin/" ++ c)%string.

Definition which_missing : string -> option string := fun _ => None.

(** A process whose second line is not valid UTF-8. *)
Definition popen_bad_bytes : popen_t :=
  fun _ => Returns {| stdout := [Utf8 "host : 1.2 - 3.4"; NotUtf8];
                      stdout_error := None;
                      returncode := 0 |}.

Definition popen_not_found : popen_t := fun _ => Raises FileNotFoundError.

Definition popen_os_error : popen_t := fun _ => Raises OSError.

End Inputs.

(** * Properties *)

(** ** Strings *)

Section StringFacts.

Lemma append_empty_r (s : string) : (s ++ "")%string = s.
Proof. induction s as [|c s IH]; simpl; [reflexivity | now rewrite IH]. Qed.

Lemma append_assoc (a b c : string) :
  ((a ++ b) ++ c)%string = (a ++ (b ++ c))%string.
Proof. induction a as [|x a IH]; simpl; [reflexivity | now rewrite IH]. Qed.

Lemma prefix_drop (sep s : string) :
  prefix sep s = true -> s = (sep ++ drop (String.length sep) s)%string.
Proof.
  revert s; induction sep as [|a sep IH]; intros s H; simpl.
  - reflexivity.
  - destruct s as [|b s]; simpl in H; [discriminate|].
    destruct (ascii_dec a b) as [->|]; [|discriminate].
    simpl. f_equal. now apply IH.
Qed.

Lemma cons_head_app c (l1 l2 : list string) :
  l1 <> [] -> cons_head c (l1 ++ l2) = cons_head c l1 ++ l2.
Proof. destruct l1; [congruence | reflexivity]. Qed.

Lemma pieces_not_nil p s : pieces p s <> [].
Proof.
  destruct s as [|c s]; simpl; [discriminate|].
  destruct (p c); [discriminate|].
  destruct (pieces p s); discriminate.
Qed.

Lemma split_from_drop sep s k :
  split_from sep s k = split_from sep (drop k s) 0.
Proof.
  revert k; induction s as [|c s IH]; intros [|k]; simpl; try reflexivity.
  apply IH.
Qed.

Lemma split_not_nil sep s : split sep s <> [].
Proof.
  unfold split. destruct s as [|c s]; cbn [split_from]; [discriminate|].
  destruct (prefix sep (String c s)); [discriminate|].
  destruct (split_from sep s 0); discriminate.
Qed.

(** [split] cuts at the first occurrence and goes on with the rest. *)
Lemma split_partition sep s :
  sep <> "" ->
  split sep s =
  match partition sep s with
  | None => [s]
  | Some (a, b) => a :: split sep b
  end.
Proof.
  intros Hsep. unfold split.
  induction s as [|c s IH].
  - destruct sep; [congruence | reflexivity].
  - cbn [split_from partition].
    destruct (prefix sep (String c s)) eqn:Hp.
    + f_equal. rewrite split_from_drop.
      destruct sep as [|a sep]; [congruence|].
      simpl. now rewrite Nat.sub_0_r.
    + rewrite IH. destruct (partition sep s) as [[a b]|]; reflexivity.
Qed.

Lemma partition_append sep s a b :
  partition sep s = Some (a, b) -> s = (a ++ sep ++ b)%string.
Proof.
  revert a b; induction s as [|c s IH]; intros a b H; cbn [partition] in H.
  - destruct (prefix sep "") eqn:Hp; [|discriminate].
    injection H as <- <-. now apply prefix_drop.
  - destruct (prefix sep (String c s)) eqn:Hp.
    + injection H as <- <-. now apply prefix_drop.
    + destruct (partition sep s) as [[a' b']|]; [|discriminate].
      injection H as <- <-. simpl. f_equal. now apply IH.
Qed.

Lemma contains_partition sep s :
  contains sep s = true <-> partition sep s <> None.
Proof.
  induction s as [|c s IH]; cbn [contains partition].
  - destruct (prefix sep ""); simpl; split; congruence.
  - destruct (prefix sep (String c s)); simpl.
    + split; congruence.
    + rewrite IH. destruct (partition sep s) as [[a b]|]; split; congruence.
Qed.

(** [split] on one character is [pieces]. *)
Lemma split_char_pieces (a : ascii) s :
  split (String a "") s = pieces (Ascii.eqb a) s.
Proof.
  unfold split. induction s as [|c s IH]; simpl; [reflexivity|].
  destruct (ascii_dec a c) as [->|Hne].
  - rewrite Ascii.eqb_refl.
    replace (prefix "" s) with true by (destruct s; reflexivity).
    now rewrite IH.
  - destruct (Ascii.eqb_spec a c); [contradiction|]. now rewrite IH.
Qed.

Lemma pieces_app_sep p x c y :
  p c = true -> pieces p (x ++ String c y) = pieces p x ++ pieces p y.
Proof.
  intros Hc. induction x as [|d x IH]; simpl.
  - now rewrite Hc.
  - rewrite IH. destruct (p d); [reflexivity|].
    apply cons_head_app, pieces_not_nil.
Qed.

Lemma pieces_word p w :
  all_chars (fun c => negb (p c)) w = true -> pieces p w = [w].
Proof.
  induction w as [|d w IH]; simpl; intros H; [reflexivity|].
  apply andb_prop in H as [Hd Hw].
  destruct (p d); [discriminate|].
  now rewrite IH.
Qed.

(** A coarser class only merges pieces. *)
Lemma pieces_refine (p q : ascii -> bool) s :
  (forall c, q c = true -> p c = true) ->
  pieces p s = flat_map (pieces p) (pieces q s).
Proof.
  intros Hqp. induction s as [|c s IH]; simpl; [reflexivity|].
  destruct (q c) eqn:Hq.
  - rewrite (Hqp c Hq). simpl. now rewrite IH.
  - destruct (pieces q s) as [|t ts] eqn:Ht; [now apply pieces_not_nil in Ht|].
    simpl in *. rewrite IH.
    destruct (p c); [reflexivity|].
    apply cons_head_app, pieces_not_nil.
Qed.

Lemma filter_flat_map {A B} (f : B -> bool) (g : A -> list B) l :
  filter f (flat_map g l) = flat_map (fun x => filter f (g x)) l.
Proof.
  induction l as [|x l IH]; simpl; [reflexivity|].
  now rewrite filter_app, IH.
Qed.

Lemma filter_repeat_empty k :
  filter (fun w => negb (is_empty w)) (repeat "" k) = [].
Proof. induction k; simpl; auto. Qed.

(** Splitting on single spaces first does not change the words. *)
Lemma split_ws_pieces_space s :
  split_ws s = flat_map split_ws (pieces space_char s).
Proof.
  unfold split_ws.
  rewrite (pieces_refine is_space space_char s).
  - apply filter_flat_map.
  - intros c Hc. unfold space_char in Hc.
    apply Ascii.eqb_eq in Hc. now subst c.
Qed.

Section Strip.

Variables p q : ascii -> bool.
Hypothesis q_in_p : forall c, q c = true -> p c = true.

Lemma pieces_rstrip s :
  exists k, pieces p s = pieces p (rstrip_by q s) ++ repeat "" k.
Proof.
  induction s as [|c s [k IH]]; simpl.
  - now exists 0.
  - destruct (q c && is_empty (rstrip_by q s)) eqn:E.
    + apply andb_prop in E as [Hq He].
      rewrite (q_in_p c Hq), IH.
      destruct (rstrip_by q s); [|discriminate].
      now exists (S k).
    + exists k. simpl. rewrite IH.
      destruct (p c); [reflexivity|].
      apply cons_head_app, pieces_not_nil.
Qed.

Lemma words_rstrip s :
  filter (fun w => negb (is_empty w)) (pieces p (rstrip_by q s)) =
  filter (fun w => negb (is_empty w)) (pieces p s).
Proof.
  destruct (pieces_rstrip s) as [k ->].
  now rewrite filter_app, filter_repeat_empty, app_nil_r.
Qed.

Lemma words_lstrip s :
  filter (fun w => negb (is_empty w)) (pieces p (lstrip_by q s)) =
  filter (fun w => negb (is_empty w)) (pieces p s).
Proof.
  induction s as [|c s IH]; simpl; [reflexivity|].
  destruct (q c) eqn:Hq; [|reflexivity].
  now rewrite (q_in_p c Hq), IH.
Qed.

Lemma words_strip s :
  filter (fun w => negb (is_empty w)) (pieces p (strip_by q s)) =
  filter (fun w => negb (is_empty w)) (pieces p s).
Proof. unfold strip_by. now rewrite words_lstrip, words_rstrip. Qed.

End Strip.

Lemma split_ws_strip s : split_ws (strip s) = split_ws s.
Proof. apply words_strip. auto. Qed.

Lemma lstrip_word q w :
  all_chars (fun c => negb (q c)) w = true -> lstrip_by q w = w.
Proof.
  destruct w as [|c w]; simpl; [reflexivity|].
  intros H. apply andb_prop in H as [Hc _].
  now destruct (q c).
Qed.

Lemma rstrip_word q w :
  all_chars (fun c => negb (q c)) w = true -> rstrip_by q w = w.
Proof.
  induction w as [|c w IH]; simpl; [reflexivity|].
  intros H. apply andb_prop in H as [Hc Hw].
  rewrite (IH Hw). now destruct (q c).
Qed.

Lemma rstrip_app_keep q x y :
  rstrip_by q y <> "" -> rstrip_by q (x ++ y) = (x ++ rstrip_by q y)%string.
Proof.
  intros Hy. induction x as [|c x IH]; simpl; [reflexivity|].
  rewrite IH. destruct (x ++ rstrip_by q y)%string eqn:E.
  - destruct x; simpl in E; [contradiction | discriminate].
  - now rewrite andb_false_r.
Qed.

Lemma lstrip_app_keep q x c y :
  q c = false ->
  lstrip_by q (x ++ String c y) = (lstrip_by q x ++ String c y)%string.
Proof.
  intros Hc. induction x as [|d x IH]; simpl.
  - now rewrite Hc.
  - now destruct (q d).
Qed.

Lemma lstrip_snoc q x c :
  lstrip_by q (x ++ String c "") = ""
  \/ exists u, lstrip_by q (x ++ String c "") = (u ++ String c "")%string.
Proof.
  induction x as [|d x IH]; simpl.
  - destruct (q c); [now left | right; now exists ""].
  - destruct (q d); [exact IH|].
    right. now exists (String d x).
Qed.

End StringFacts.

(** ** Numbers *)

Section NumberFacts.

Lemma min_from_In r : forall x, In (min_from x r) (x :: r).
Proof.
  unfold min_from. induction r as [|z r IH]; intros x; simpl; [now left|].
  destruct (PrimFloat.ltb z x).
  - right. apply IH.
  - destruct (IH x) as [H|H]; [now left | right; now right].
Qed.

Lemma max_from_In r : forall x, In (max_from x r) (x :: r).
Proof.
  unfold max_from. induction r as [|z r IH]; intros x; simpl; [now left|].
  destruct (PrimFloat.ltb x z).
  - right. apply IH.
  - destruct (IH x) as [H|H]; [now left | right; now right].
Qed.

(** What [ordered] checks, as propositions. *)
Lemma ordered_spec l :
  ordered l = true ->
  (forall x y, In x l -> In y l ->
     PrimFloat.leb x y = negb (PrimFloat.ltb y x)) /\
  (forall x y, In x l -> In y l ->
     PrimFloat.leb x y = true \/ PrimFloat.leb y x = true) /\
  (forall x y z, In x l -> In y l -> In z l ->
     PrimFloat.leb x y = true -> PrimFloat.leb y z = true ->
     PrimFloat.leb x z = true).
Proof.
  unfold ordered. intros H. rewrite forallb_forall in H.
  assert (Hxy : forall x y, In x l -> In y l ->
            Bool.eqb (PrimFloat.leb x y) (negb (PrimFloat.ltb y x)) = true /\
            (PrimFloat.leb x y || PrimFloat.leb y x) = true /\
            forall z, In z l ->
              implb (PrimFloat.leb x y && PrimFloat.leb y z)
                    (PrimFloat.leb x z) = true).
  { intros x y Hx Hy. specialize (H x Hx). rewrite forallb_forall in H.
    specialize (H y Hy). apply andb_prop in H as [H H3].
    apply andb_prop in H as [H1 H2].
    rewrite forallb_forall in H3. auto. }
  split; [|split].
  - intros x y Hx Hy. destruct (Hxy x y Hx Hy) as (H1 & _).
    now apply Bool.eqb_prop.
  - intros x y Hx Hy. destruct (Hxy x y Hx Hy) as (_ & H2 & _).
    now apply orb_prop.
  - intros x y z Hx Hy Hz Lxy Lyz. destruct (Hxy x y Hx Hy) as (_ & _ & H3).
    specialize (H3 z Hz). now rewrite Lxy, Lyz in H3.
Qed.

(** On samples that [<=] orders, [min] picks a least one. *)
Lemma min_from_least l r : forall x,
  ordered l = true -> incl (x :: r) l ->
  forall y, In y (x :: r) -> PrimFloat.leb (min_from x r) y = true.
Proof.
  intros x Hord. destruct (ordered_spec l Hord) as (Hneg & Htot & Htrans).
  revert x. induction r as [|z r IH]; intros x Hincl y Hy.
  - destruct Hy as [Hy|[]]. subst y.
    destruct (Htot x x); auto; apply Hincl; now left.
  - assert (Hx : In x l) by (apply Hincl; now left).
    assert (Hz : In z l) by (apply Hincl; right; now left).
    change (min_from x (z :: r))
      with (min_from (if PrimFloat.ltb z x then z else x) r).
    destruct (PrimFloat.ltb z x) eqn:E.
    + assert (Hincl' : incl (z :: r) l).
      { intros w Hw. apply Hincl. now right. }
      destruct Hy as [Hy|Hy]; [subst y | now apply IH].
      apply (Htrans _ z x); auto.
      * apply Hincl', min_from_In.
      * apply IH; [exact Hincl' | now left].
      * destruct (Htot z x Hz Hx) as [L|L]; [exact L|].
        rewrite (Hneg x z Hx Hz), E in L. discriminate.
    + assert (Hincl' : incl (x :: r) l).
      { intros w [Hw|Hw]; [now subst w | apply Hincl; right; now right]. }
      destruct Hy as [Hy|[Hy|Hy]].
      * subst y. apply IH; [exact Hincl' | now left].
      * subst y. apply (Htrans _ x z); auto.
        -- apply Hincl', min_from_In.
        -- apply IH; [exact Hincl' | now left].
        -- now rewrite (Hneg x z Hx Hz), E.
      * apply IH; [exact Hincl' | now right].
Qed.

(** On samples that [<=] orders, [max] picks a greatest one. *)
Lemma max_from_greatest l r : forall x,
  ordered l = true -> incl (x :: r) l ->
  forall y, In y (x :: r) -> PrimFloat.leb y (max_from x r) = true.
Proof.
  intros x Hord. destruct (ordered_spec l Hord) as (Hneg & Htot & Htrans).
  revert x. induction r as [|z r IH]; intros x Hincl y Hy.
  - destruct Hy as [Hy|[]]. subst y.
    destruct (Htot x x); auto; apply Hincl; now left.
  - assert (Hx : In x l) by (apply Hincl; now left).
    assert (Hz : In z l) by (apply Hincl; right; now left).
    change (max_from x (z :: r))
      with (max_from (if PrimFloat.ltb x z then z else x) r).
    destruct (PrimFloat.ltb x z) eqn:E.
    + assert (Hincl' : incl (z :: r) l).
      { intros w Hw. apply Hincl. now right. }
      destruct Hy as [Hy|Hy]; [subst y | now apply IH].
      apply (Htrans x z _); auto.
      * apply Hincl', max_from_In.
      * destruct (Htot x z Hx Hz) as [L|L]; [exact L|].
        rewrite (Hneg z x Hz Hx), E in L. discriminate.
      * apply IH; [exact Hincl' | now left].
    + assert (Hincl' : incl (x :: r) l).
      { intros w [Hw|Hw]; [now subst w | apply Hincl; right; now right]. }
      destruct Hy as [Hy|[Hy|Hy]].
      * subst y. apply IH; [exact Hincl' | now left].
      * subst y. apply (Htrans z x _); auto.
        -- apply Hincl', max_from_In.
        -- now rewrite (Hneg z x Hz Hx), E.
        -- apply IH; [exact Hincl' | now left].
      * apply IH; [exact Hincl' | now right].
Qed.

Lemma last_cons_default {A} (l : list A) : forall z a b,
  last (z :: l) a = last (z :: l) b.
Proof.
  induction l as [|y l IH]; intros z a b; [reflexivity|].
  change (last (y :: l) a = last (y :: l) b). apply IH.
Qed.

Lemma last_snoc {A} (r : list A) : forall x,
  exists pre, x :: r = pre ++ [last r x].
Proof.
  induction r as [|y r IH]; intros x.
  - now exists [].
  - destruct (IH y) as [pre E]. exists (x :: pre).
    cbn [app]. f_equal.
    destruct r as [|z r]; [exact E|].
    rewrite (last_cons_default r z y x) in E.
    exact E.
Qed.

Lemma len_nonneg {A} (l : list A) : (0 <= len l)%Z.
Proof. unfold len. lia. Qed.

Lemma len_app {A} (l1 l2 : list A) : len (l1 ++ l2) = (len l1 + len l2)%Z.
Proof. unfold len. rewrite length_app. lia. Qed.

Lemma float_of_int_nonzero n : n <> 0%Z -> Qeq_bool (float_of_int n) 0 = false.
Proof.
  intros H. unfold float_of_int, Qeq_bool, inject_Z. simpl.
  apply Z.eqb_neq. lia.
Qed.

End NumberFacts.

(** ** The line parser *)

Section ParserFacts.

Variable py_float : string -> option float.
Variable py_sum : list float -> float.

Lemma parse_times_eq pings : forall acc,
  parse_times py_float pings acc =
  if forallb (accepted py_float) pings
  then Returns (acc ++ samples_of py_float pings)
  else Raises ValueError.
Proof.
  induction pings as [|t pings IH]; intros acc; simpl.
  - now rewrite app_nil_r.
  - unfold accepted at 1. destruct (String.eqb t "-"); simpl.
    + apply IH.
    + destruct (py_float t) as [x|]; simpl; [|reflexivity].
      rewrite IH. now rewrite <- app_assoc.
Qed.

Lemma samples_of_bound toks : (len (samples_of py_float toks) <= len toks)%Z.
Proof.
  unfold len. apply inj_le.
  induction toks as [|t toks IH]; simpl; [lia|].
  rewrite length_app.
  destruct (String.eqb t "-"); simpl; [lia|].
  destruct (py_float t); simpl; lia.
Qed.

(** The samples are the values of the tokens that are not the sentinel. *)
Lemma samples_of_length toks :
  forallb (accepted py_float) toks = true ->
  length (samples_of py_float toks) =
  length (filter (fun t => negb (is_sentinel t)) toks).
Proof.
  induction toks as [|t toks IH]; simpl; [reflexivity|].
  intros H. apply andb_prop in H as [Ht Htoks].
  rewrite length_app, (IH Htoks).
  unfold accepted in Ht. unfold is_sentinel.
  destruct (String.eqb t "-"); simpl; [reflexivity|].
  destruct (py_float t); [reflexivity | discriminate].
Qed.

(** From the tokens on, the parser fails only on a token that is neither
    the sentinel nor a number; no operation after the loop can fail. *)
Lemma parse_tokens_eq host toks :
  parse_tokens py_float py_sum host toks =
  if forallb (accepted py_float) toks
  then Returns (base_record host (len toks) (samples_of py_float toks)
                ++ stats_record py_sum (samples_of py_float toks))
  else Raises ValueError.
Proof.
  unfold parse_tokens. rewrite parse_times_eq.
  destruct (forallb (accepted py_float) toks); [|reflexivity].
  cbn [obind app].
  pose proof (samples_of_bound toks) as Hb.
  set (times := samples_of py_float toks) in *.
  assert (Hloss :
    (if negb (len toks - len times =? 0)%Z
     then truediv (float_of_int (len toks - len times)) (float_of_int (len toks))
     else Returns 0%Q) = Returns (loss_of (len toks) times)).
  { unfold loss_of. destruct (len toks - len times =? 0)%Z eqn:E; [reflexivity|].
    apply Z.eqb_neq in E. cbn [negb]. unfold truediv.
    rewrite float_of_int_nonzero; [reflexivity|].
    pose proof (len_nonneg times). lia. }
  rewrite Hloss. cbn [obind].
  destruct times as [|x r]; [reflexivity|].
  cbn [truthy py_min py_max last_item obind].
  unfold truediv_int.
  destruct (Z.eqb_spec (len (x :: r)) 0) as [E|_]; [|reflexivity].
  unfold len in E. simpl in E. lia.
Qed.

Lemma parse_verbose_result line :
  result (parse_verbose py_float py_sum line) =
  Returns match parse_verbose_try py_float py_sum line with
          | Returns rv => Some rv
          | Raises _ => None
          end.
Proof.
  unfold parse_verbose, result.
  destruct (parse_verbose_try py_float py_sum line); reflexivity.
Qed.

Lemma parse_verbose_returns line :
  exists r, result (parse_verbose py_float py_sum line) = Returns r.
Proof. rewrite parse_verbose_result. eauto. Qed.

(** What a line that parses looks like, and the record it gives. *)
Lemma parse_verbose_Some line rv :
  result (parse_verbose py_float py_sum line) = Returns (Some rv) ->
  exists host pings,
    partition " : " line = Some (host, pings) /\
    partition " : " pings = None /\
    forallb (accepted py_float) (split " " (strip pings)) = true /\
    rv = base_record host (len (split " " (strip pings)))
                     (samples_of py_float (split " " (strip pings)))
         ++ stats_record py_sum (samples_of py_float (split " " (strip pings))).
Proof.
  rewrite parse_verbose_result. unfold parse_verbose_try.
  rewrite (split_partition " : " line) by discriminate.
  destruct (partition " : " line) as [[host rest]|]; [|discriminate].
  rewrite (split_partition " : " rest) by discriminate.
  destruct (partition " : " rest) as [[a b]|] eqn:Hrest.
  - pose proof (split_not_nil " : " b).
    destruct (split " : " b); [contradiction | discriminate].
  - rewrite parse_tokens_eq.
    destruct (forallb _ _) eqn:Hacc; [|discriminate].
    intros H. injection H as <-.
    exists host, rest. repeat split; assumption.
Qed.

End ParserFacts.

Section LineParser.

Variable py_float : string -> option float.
Variable py_sum : list float -> float.

(** [float] takes one word, possibly with whitespace around it, and gives
    the value of the word. *)
Hypothesis float_word :
  forall s x, py_float s = Some x ->
  exists w, split_ws s = [w] /\ py_float w = Some x.

(** The sentinel is not a number. *)
Hypothesis float_sentinel : py_float "-" = None.

Lemma accepted_word t :
  accepted py_float t = true ->
  exists w, split_ws t = [w] /\ accepted py_float w = true /\
            samples_of py_float [w] = samples_of py_float [t].
Proof.
  unfold accepted. destruct (String.eqb t "-") eqn:E; simpl.
  - intros _. apply String.eqb_eq in E. subst t.
    exists "-". repeat split; reflexivity.
  - destruct (py_float t) as [x|] eqn:F; [|discriminate]. intros _.
    destruct (float_word t x F) as (w & Hw & Fw).
    exists w. split; [exact Hw|].
    unfold samples_of. simpl. rewrite E, Fw.
    destruct (String.eqb w "-") eqn:Ew.
    + apply String.eqb_eq in Ew. subst w. congruence.
    + split; reflexivity.
Qed.

Lemma accepted_words toks :
  forallb (accepted py_float) toks = true ->
  length (flat_map split_ws toks) = length toks /\
  samples_of py_float (flat_map split_ws toks) = samples_of py_float toks /\
  forallb (accepted py_float) (flat_map split_ws toks) = true.
Proof.
  induction toks as [|t toks IH]; simpl; [auto|].
  intros H. apply andb_prop in H as [Ht Htoks].
  destruct (IH Htoks) as (Hlen & Hsam & Hacc).
  destruct (accepted_word t Ht) as (w & Hw & Haw & Hsw).
  rewrite Hw. simpl in *. rewrite Hlen, Haw, Hacc.
  repeat split.
  unfold samples_of in *. simpl in *.
  rewrite !app_nil_r in Hsw. now rewrite Hsw, Hsam.
Qed.

(** The tokens of a line that parses are the words of its right side. *)
Lemma tokens_are_words pings :
  forallb (accepted py_float) (split " " (strip pings)) = true ->
  length (split_ws pings) = length (split " " (strip pings)) /\
  samples_of py_float (split_ws pings) =
    samples_of py_float (split " " (strip pings)) /\
  forallb (accepted py_float) (split_ws pings) = true.
Proof.
  intros H.
  rewrite <- (split_ws_strip pings), split_ws_pieces_space.
  rewrite split_char_pieces in *.
  now apply accepted_words.
Qed.

Lemma loss_of_eq cnt times :
  (0 < cnt)%Z ->
  (loss_of cnt times == inject_Z (cnt - len times) / inject_Z cnt)%Q.
Proof.
  intros Hc. unfold loss_of, float_of_int.
  destruct (cnt - len times =? 0)%Z eqn:E; [|reflexivity].
  apply Z.eqb_eq in E. rewrite E. unfold Qdiv. now rewrite Qmult_0_l.
Qed.

Lemma loss_of_range cnt times :
  (0 < cnt)%Z -> (len times <= cnt)%Z ->
  (0 <= loss_of cnt times)%Q /\ (loss_of cnt times <= 1)%Q.
Proof.
  intros Hc Hl. rewrite (loss_of_eq cnt times Hc).
  assert (Hpos : (0 < inject_Z cnt)%Q).
  { change 0%Q with (inject_Z 0). rewrite <- Zlt_Qlt. exact Hc. }
  split.
  - apply Qle_shift_div_l; [exact Hpos|].
    rewrite Qmult_0_l. change 0%Q with (inject_Z 0).
    rewrite <- Zle_Qle. pose proof (len_nonneg times). lia.
  - apply Qle_shift_div_r; [exact Hpos|].
    rewrite Qmult_1_l. rewrite <- Zle_Qle.
    pose proof (len_nonneg times). lia.
Qed.

(** C1: in the record of a line that parses, [cnt] is the number of
    whitespace-separated tokens of the right side of the line, [data]
    holds the values of the tokens that are not the sentinel, [loss] is
    [(cnt - len(data)) / cnt] when [cnt > 0] and [0.0] otherwise, and
    [loss] lies between 0 and 1. *)
Theorem parse_verbose_loss_invariant line rv :
  result (parse_verbose py_float py_sum line) = Returns (Some rv) ->
  exists host rhs cnt samples loss,
    partition " : " line = Some (host, rhs) /\
    dict_get "cnt" rv = Some (VInt cnt) /\
    dict_get "data" rv = Some (VList samples) /\
    dict_get "loss" rv = Some (VFloat loss) /\
    cnt = len (split_ws rhs) /\
    samples = samples_of py_float (split_ws rhs) /\
    length samples = length (filter (fun t => negb (is_sentinel t)) (split_ws rhs)) /\
    ((0 < cnt)%Z -> (loss == inject_Z (cnt - len samples) / inject_Z cnt)%Q) /\
    ((cnt <= 0)%Z -> (loss == 0)%Q) /\
    (0 <= loss)%Q /\ (loss <= 1)%Q.
Proof using float_word float_sentinel.
  intros H.
  destruct (parse_verbose_Some py_float py_sum line rv H)
    as (host & rhs & Hpart & _ & Hacc & ->).
  destruct (tokens_are_words rhs Hacc) as (Hlen & Hsam & Hwacc).
  set (toks := split " " (strip rhs)) in *.
  assert (Hcnt : len toks = len (split_ws rhs)) by (unfold len; now rewrite Hlen).
  assert (Hpos : (0 < len toks)%Z).
  { unfold len, toks. pose proof (split_not_nil " " (strip rhs)).
    destruct (split " " (strip rhs)); [contradiction | simpl; lia]. }
  pose proof (samples_of_bound py_float toks) as Hb.
  exists host, rhs, (len toks), (samples_of py_float toks),
         (loss_of (len toks) (samples_of py_float toks)).
  split; [exact Hpart|].
  split; [reflexivity|]. split; [reflexivity|]. split; [reflexivity|].
  split; [exact Hcnt|].
  split; [now rewrite Hsam|].
  split; [rewrite <- Hsam; now apply samples_of_length|].
  split; [intros _; now apply loss_of_eq|].
  split; [intros Hle; lia|].
  now apply loss_of_range.
Qed.

(** C10: a record the parser returns has [cnt >= 1] and
    [len(data) <= cnt], so the division that computes the loss has a
    strictly positive divisor and returns a value. *)
Theorem parse_verbose_count_positive line rv :
  result (parse_verbose py_float py_sum line) = Returns (Some rv) ->
  exists cnt samples,
    dict_get "cnt" rv = Some (VInt cnt) /\
    dict_get "data" rv = Some (VList samples) /\
    (1 <= cnt)%Z /\
    (len samples <= cnt)%Z /\
    (0 < float_of_int cnt)%Q /\
    exists q,
      truediv (float_of_int (cnt - len samples)) (float_of_int cnt) = Returns q.
Proof.
  intros H.
  destruct (parse_verbose_Some py_float py_sum line rv H)
    as (host & rhs & _ & _ & _ & ->).
  set (toks := split " " (strip rhs)).
  assert (Hpos : (1 <= len toks)%Z).
  { unfold len, toks. pose proof (split_not_nil " " (strip rhs)).
    destruct (split " " (strip rhs)); [contradiction | simpl; lia]. }
  exists (len toks), (samples_of py_float toks).
  split; [reflexivity|]. split; [reflexivity|].
  split; [exact Hpos|].
  split; [apply samples_of_bound|].
  split.
  - unfold float_of_int. change 0%Q with (inject_Z 0).
    rewrite <- Zlt_Qlt. lia.
  - unfold truediv. rewrite float_of_int_nonzero by lia. eauto.
Qed.

(** C3: the parser never raises.  For every line it returns a record or
    [None], and a line without the separator gives [None]. *)
Theorem parse_verbose_never_raises line :
  exists r,
    result (parse_verbose py_float py_sum line) = Returns r /\
    (r = None \/
     exists rv host cnt loss samples,
       r = Some rv /\
       dict_get "host" rv = Some (VStr host) /\
       dict_get "cnt" rv = Some (VInt cnt) /\
       dict_get "loss" rv = Some (VFloat loss) /\
       dict_get "data" rv = Some (VList samples)) /\
    (contains " : " line = true \/ r = None).
Proof.
  destruct (result (parse_verbose py_float py_sum line)) as [[rv|]|e] eqn:H.
  - exists (Some rv). split; [reflexivity|].
    destruct (parse_verbose_Some py_float py_sum line rv H)
      as (host & rhs & Hpart & _ & _ & ->).
    split.
    + right. do 5 eexists. split; [reflexivity|].
      repeat split; reflexivity.
    + left. apply contains_partition. congruence.
  - exists None. auto.
  - rewrite parse_verbose_result in H. discriminate.
Qed.

(** C4, as the code has it: when [data] is not empty the record has
    [min], [max], [avg] and [last].  [min] and [max] are the elements of
    [data] that [min()] and [max()] pick: the least and the greatest sample
    whenever [<=] orders the samples (it does not when one is a nan).
    [avg] is the float quotient of [sum(data)] by [len(data)], [last] is the
    last element of [data], which holds the numeric tokens in token order.
    When [data] is empty the record has none of the four. *)
Theorem parse_verbose_stats line rv :
  result (parse_verbose py_float py_sum line) = Returns (Some rv) ->
  exists host rhs samples,
    partition " : " line = Some (host, rhs) /\
    samples = samples_of py_float (split " " (strip rhs)) /\
    dict_get "data" rv = Some (VList samples) /\
    (samples <> [] ->
     exists mn mx avg lst,
       dict_get "min" rv = Some (VDouble mn) /\
       dict_get "max" rv = Some (VDouble mx) /\
       dict_get "avg" rv = Some (VDouble avg) /\
       dict_get "last" rv = Some (VDouble lst) /\
       In mn samples /\ In mx samples /\
       (ordered samples = true ->
        (forall x, In x samples -> PrimFloat.leb mn x = true) /\
        (forall x, In x samples -> PrimFloat.leb x mx = true)) /\
       avg = PrimFloat.div (py_sum samples) (double_of_int (len samples)) /\
       (exists before, samples = before ++ [lst])) /\
    (samples = [] ->
     dict_get "min" rv = None /\ dict_get "max" rv = None /\
     dict_get "avg" rv = None /\ dict_get "last" rv = None).
Proof.
  intros H.
  destruct (parse_verbose_Some py_float py_sum line rv H)
    as (host & rhs & Hpart & _ & _ & ->).
  set (samples := samples_of py_float (split " " (strip rhs))).
  exists host, rhs, samples.
  split; [exact Hpart|]. split; [reflexivity|]. split; [reflexivity|].
  split.
  - intros Hne. destruct samples as [|x r]; [congruence|].
    exists (min_from x r), (max_from x r),
           (PrimFloat.div (py_sum (x :: r)) (double_of_int (len (x :: r)))),
           (last r x).
    split; [reflexivity|]. split; [reflexivity|].
    split; [reflexivity|]. split; [reflexivity|].
    split; [apply min_from_In|]. split; [apply max_from_In|].
    split.
    + intros Hord. split.
      * apply (min_from_least (x :: r)); [exact Hord | apply incl_refl].
      * apply (max_from_greatest (x :: r)); [exact Hord | apply incl_refl].
    + split; [reflexivity | apply last_snoc].
  - intros ->. repeat split; reflexivity.
Qed.

Lemma colon_token a b :
  In ":" (pieces space_char (strip (a ++ " : " ++ b))).
Proof.
  unfold strip, strip_by.
  replace (a ++ " : " ++ b)%string
    with ((a ++ " ") ++ String ":" (String " " b))%string
    by (rewrite append_assoc; reflexivity).
  assert (HT : exists T, rstrip_by is_space (String ":" (String " " b))
                         = String ":" T /\
                         (T = "" \/ exists T', T = String " " T')).
  { cbn [rstrip_by]. change (is_space ":") with false. cbn [andb].
    eexists. split; [reflexivity|].
    change (is_space " ") with true. cbn [andb].
    destruct (is_empty (rstrip_by is_space b)); [now left | right; eauto]. }
  destruct HT as (T & HT & HTform).
  rewrite rstrip_app_keep by (rewrite HT; discriminate).
  rewrite HT.
  rewrite lstrip_app_keep by reflexivity.
  assert (Hcolon : In ":" (pieces space_char (String ":" T))).
  { destruct HTform as [->|[T' ->]]; simpl.
    - now left.
    - destruct (pieces space_char T'); now left. }
  destruct (lstrip_snoc is_space a " ") as [->|[u ->]].
  - exact Hcolon.
  - rewrite append_assoc. cbn [append].
    rewrite pieces_app_sep by reflexivity.
    apply in_or_app. right. exact Hcolon.
Qed.

Lemma parse_tokens_reject host toks t :
  In t toks -> accepted py_float t = false ->
  parse_tokens py_float py_sum host toks = Raises ValueError.
Proof.
  intros Hin Ht. rewrite parse_tokens_eq.
  destruct (forallb (accepted py_float) toks) eqn:E; [|reflexivity].
  rewrite forallb_forall in E. rewrite (E t Hin) in Ht. discriminate.
Qed.

(** The colon is not a number. *)
Hypothesis float_colon : py_float ":" = None.

(** C2, as the code has it: for a line that holds the separator, the
    parser gives what splitting on the first occurrence of the separator
    gives, with the trimmed left side as the host and the right side,
    trimmed and split on the single space character, as the token list
    from which the record is built. *)
Theorem parse_verbose_splits_on_space line :
  contains " : " line = true ->
  result (parse_verbose py_float py_sum line) =
  Returns (Design.line_parser_with py_float py_sum (split " ") line).
Proof using float_colon.
  intros Hc. apply contains_partition in Hc.
  rewrite parse_verbose_result. f_equal.
  unfold parse_verbose_try, Design.line_parser_with, Design.record.
  rewrite (split_partition " : " line) by discriminate.
  destruct (partition " : " line) as [[host rest]|]; [|congruence].
  rewrite (split_partition " : " rest) by discriminate.
  destruct (partition " : " rest) as [[a b]|] eqn:Hrest.
  - apply partition_append in Hrest. subst rest.
    assert (Hrej : forallb (accepted py_float)
                     (split " " (strip (a ++ " : " ++ b))) = false).
    { destruct (forallb _ _) eqn:E; [|reflexivity].
      rewrite forallb_forall in E.
      assert (Hin : In ":" (split " " (strip (a ++ " : " ++ b))))
        by (rewrite split_char_pieces; apply colon_token).
      specialize (E ":" Hin). unfold accepted in E.
      now rewrite float_colon in E. }
    rewrite Hrej.
    pose proof (split_not_nil " : " b).
    destruct (split " : " b); [contradiction | reflexivity].
  - rewrite parse_tokens_eq.
    destruct (forallb (accepted py_float) (split " " (strip rest)));
      reflexivity.
Qed.

End LineParser.

(** ** The host resolver *)

Section HostFacts.

Lemma existsb_eqb_In y acc : existsb (String.eqb y) acc = true <-> In y acc.
Proof.
  rewrite existsb_exists. split.
  - intros (x & Hx & E). apply String.eqb_eq in E. now subst.
  - intros H. exists y. split; [exact H | apply String.eqb_refl].
Qed.

Lemma not_in_true y acc : not_in acc y = true <-> ~ In y acc.
Proof.
  unfold not_in. rewrite negb_true_iff, <- existsb_eqb_In.
  destruct (existsb (String.eqb y) acc); split; congruence.
Qed.

Lemma filter_filter {A} (f g : A -> bool) l :
  filter f (filter g l) = filter (fun x => g x && f x) l.
Proof.
  induction l as [|x l IH]; simpl; [reflexivity|].
  destruct (g x); simpl; [|exact IH].
  destruct (f x); now rewrite IH.
Qed.

Lemma existsb_snoc y acc x :
  existsb (String.eqb y) (acc ++ [x]) =
  existsb (String.eqb y) acc || String.eqb y x.
Proof. rewrite existsb_app. simpl. now rewrite orb_false_r. Qed.

(** The loop of [hosts_args] keeps the first occurrences. *)
Lemma dedupe_loop_first_seen l : forall acc,
  dedupe_loop l acc = acc ++ filter (not_in acc) (Design.first_seen l).
Proof.
  induction l as [|x l IH]; intros acc; simpl.
  - now rewrite app_nil_r.
  - rewrite !IH. unfold not_in at 3.
    destruct (existsb (String.eqb x) acc) eqn:E; simpl.
    + f_equal. rewrite filter_filter. apply filter_ext_in.
      intros y _. unfold not_in.
      destruct (String.eqb_spec y x) as [->|]; simpl; [|reflexivity].
      now rewrite E.
    + rewrite <- app_assoc. simpl. do 2 f_equal.
      rewrite filter_filter. apply filter_ext.
      intros y. unfold not_in. rewrite existsb_snoc, negb_orb.
      apply andb_comm.
Qed.

Lemma first_seen_In a l : In a (Design.first_seen l) <-> In a l.
Proof.
  induction l as [|x l IH]; simpl; [tauto|].
  rewrite filter_In, IH, negb_true_iff, String.eqb_neq.
  destruct (string_dec x a) as [->|]; [tauto|].
  split; [tauto|]. intros [?|?]; [tauto|]. right. split; congruence.
Qed.

Lemma first_seen_NoDup l : NoDup (Design.first_seen l).
Proof.
  induction l as [|x l IH]; simpl; constructor.
  - rewrite filter_In, negb_true_iff, String.eqb_neq. tauto.
  - now apply NoDup_filter.
Qed.

Lemma first_seen_app l1 l2 :
  Design.first_seen (l1 ++ l2) =
  Design.first_seen l1 ++ filter (not_in l1) (Design.first_seen l2).
Proof.
  induction l1 as [|a l1 IH]; simpl.
  - symmetry. apply forallb_filter_id. now apply forallb_forall.
  - f_equal. rewrite IH, filter_app. f_equal.
    rewrite filter_filter. apply filter_ext.
    intros y. unfold not_in. simpl. rewrite negb_orb.
    apply andb_comm.
Qed.

Lemma collect_hosts_addresses rows : forall addrs acc,
  map Design.address_of rows = map Some addrs ->
  collect_hosts rows acc = Returns (acc ++ addrs).
Proof.
  induction rows as [|r rows IH]; intros [|a addrs] acc H;
    try discriminate; simpl.
  - now rewrite app_nil_r.
  - simpl in H. injection H as Ha Hrest.
    destruct r as [s|d]; simpl in *.
    + injection Ha as ->. rewrite (IH addrs) by exact Hrest.
      now rewrite <- app_assoc.
    + destruct (row_get "host" d); [|discriminate].
      injection Ha as ->. simpl. rewrite (IH addrs) by exact Hrest.
      now rewrite <- app_assoc.
Qed.

(** C6: when every configured entry gives an address (a plain string, or
    a dict with a ["host"] key), the resolver returns the addresses without
    duplicates: each distinct address once, and an address comes after
    exactly the addresses seen before its first occurrence.  An empty list
    gives an empty list. *)
Theorem hosts_args_first_seen self addrs :
  map Design.address_of (hosts self) = map Some addrs ->
  exists resolved,
    hosts_args self = Returns resolved /\
    resolved = Design.first_seen addrs /\
    NoDup resolved /\
    (forall a, In a resolved <-> In a addrs) /\
    (forall l1 x l2, addrs = l1 ++ x :: l2 -> ~ In x l1 ->
       exists r1 r2, resolved = r1 ++ x :: r2 /\
                     forall y, In y r1 <-> In y l1) /\
    (addrs = [] -> resolved = []).
Proof.
  intros H. exists (Design.first_seen addrs).
  split.
  - unfold hosts_args. rewrite (collect_hosts_addresses _ addrs []) by exact H.
    simpl. rewrite dedupe_loop_first_seen. simpl.
    f_equal. apply forallb_filter_id. now apply forallb_forall.
  - split; [reflexivity|].
    split; [apply first_seen_NoDup|].
    split; [intros a; apply first_seen_In|].
    split.
    + intros l1 x l2 -> Hx.
      rewrite first_seen_app. simpl.
      apply not_in_true in Hx. rewrite Hx.
      eexists _, _. split; [reflexivity|].
      intros y. apply first_seen_In.
    + now intros ->.
Qed.

(** C5: the argument list is the command, then the flags, then the
    resolved hosts in their order.  The flags always hold [-u], [-C<count>],
    [-p<period>] and [-e], and hold [-q] exactly when the detected version
    is 5. *)
Theorem run_args_shape self resolved :
  hosts_args self = Returns resolved ->
  exists flags,
    run_args self = Returns (command self :: flags ++ resolved) /\
    In "-u" flags /\
    In ("-C" ++ format_d (count self))%string flags /\
    In ("-p" ++ format_d (period self))%string flags /\
    In "-e" flags /\
    (In "-q" flags <-> _fping_version self = 5%Z).
Proof.
  intros H. unfold run_args. rewrite H.
  destruct (_fping_version self =? 5)%Z eqn:E.
  - apply Z.eqb_eq in E.
    eexists [_; _; _; _; _]. split; [reflexivity|].
    simpl. intuition auto.
  - apply Z.eqb_neq in E.
    eexists [_; _; _; _]. split; [reflexivity|].
    simpl. intuition (auto; try discriminate).
Qed.

End HostFacts.

(** ** The process runner and the probe cycle *)

Section ProbeFacts.

Variable py_float : string -> option float.
Variable py_sum : list float -> float.
Variable popen : popen_t.

Lemma bind_lift_Returns {A B} (a : A) (f : A -> Prog B) :
  bind (lift (Returns a)) f = f a.
Proof. unfold bind, lift. now destruct (f a). Qed.

Lemma bind_lift_Raises {A B} e (f : A -> Prog B) :
  bind (lift (Raises e)) f = ([], Raises e).
Proof. reflexivity. Qed.

Lemma parse_verbose_run line :
  exists logs, parse_verbose py_float py_sum line =
               (logs, result (parse_verbose py_float py_sum line)).
Proof. destruct (parse_verbose py_float py_sum line) as [l r]. now exists l. Qed.

(** A record that parsed is a non-empty dict, so its truth value is true. *)
Lemma truthy_parsed line r :
  result (parse_verbose py_float py_sum line) = Returns r ->
  truthy_result r = is_not_None r.
Proof.
  destruct r as [rv|]; [|reflexivity]. intros H.
  destruct (parse_verbose_Some py_float py_sum line rv H) as (h & p & _ & _ & _ & ->).
  reflexivity.
Qed.

(** Reading a pipe that decodes and does not fail collects the records of
    the lines that parse. *)
Lemma read_lines_records out : forall data,
  forallb decodable out = true ->
  exists logs,
    read_lines py_float py_sum out None data =
    (logs, Returns (data ++ parsed_records py_float py_sum out)).
Proof.
  induction out as [|b out IH]; intros data H.
  - exists []. simpl. now rewrite app_nil_r.
  - cbn [forallb] in H. apply andb_prop in H as [Hb Hout].
    destruct b as [s|]; [|discriminate]. cbn [read_lines decode].
    rewrite bind_lift_Returns.
    destruct (parse_verbose_run s) as [l Hl].
    destruct (parse_verbose_returns py_float py_sum s) as (r & Hr).
    rewrite Hl, Hr. cbn [bind].
    rewrite (truthy_parsed s r Hr).
    change (parsed_records py_float py_sum (Utf8 s :: out))
      with (match result (parse_verbose py_float py_sum s) with
            | Returns (Some rv) => [Some rv]
            | _ => []
            end ++ parsed_records py_float py_sum out).
    rewrite Hr.
    destruct r as [rv|]; cbn [is_not_None].
    + destruct (IH (data ++ [Some rv]) Hout) as [l2 ->].
      exists (l ++ l2). now rewrite <- app_assoc.
    + destruct (IH data Hout) as [l2 ->].
      exists (l ++ l2). reflexivity.
Qed.

Lemma parsed_records_not_None out :
  filter is_not_None (parsed_records py_float py_sum out) = parsed_records py_float py_sum out.
Proof.
  apply forallb_filter_id. apply forallb_forall. intros d Hd.
  unfold parsed_records in Hd. apply in_flat_map in Hd as (b & _ & Hd).
  destruct b as [s|]; [|contradiction].
  destruct (result (parse_verbose py_float py_sum s)) as [[rv|]|]; try contradiction.
  destruct Hd as [<-|[]]. reflexivity.
Qed.

(** What [_run_proc] returns does not depend on the exit code. *)
Lemma run_proc_result (launch : popen_t) self args proc :
  run_args self = Returns args ->
  launch args = Returns proc ->
  result (_run_proc py_float py_sum launch self) =
  match result (read_lines py_float py_sum (stdout proc) (stdout_error proc) []) with
  | Returns data => Returns data
  | Raises FileNotFoundError => Raises FileNotFoundError
  | Raises _ => Returns []
  end.
Proof.
  intros Hargs Hlaunch. unfold _run_proc.
  rewrite Hargs, bind_lift_Returns, Hlaunch, bind_lift_Returns.
  destruct (read_lines py_float py_sum (stdout proc) (stdout_error proc) [])
    as [l [data|e]]; simpl.
  - now destruct (negb (returncode proc =? 0)%Z).
  - now destruct e.
Qed.

(** C8: when the output is read to its end and the process exits with a
    non-zero code, [_run_proc] still returns the records of the lines that
    parsed, in line order; the exit code adds one warning to the log, as
    its last entry, and the same process exiting with any other code gives
    the same result. *)
Theorem run_proc_nonzero_exit self args proc :
  run_args self = Returns args ->
  popen args = Returns proc ->
  stdout_error proc = None ->
  forallb decodable (stdout proc) = true ->
  returncode proc <> 0%Z ->
  result (_run_proc py_float py_sum popen self) =
    Returns (parsed_records py_float py_sum (stdout proc)) /\
  (exists logs,
     logged (_run_proc py_float py_sum popen self) =
     logs ++ [(WARNING, "fping process exited with code")]) /\
  (forall rc,
     result (_run_proc py_float py_sum (fun _ => Returns (exit_with rc proc)) self) =
     result (_run_proc py_float py_sum popen self)).
Proof.
  intros Hargs Hpopen Herr Hdec Hrc.
  split; [|split].
  - rewrite (run_proc_result popen self args proc Hargs Hpopen), Herr.
    destruct (read_lines_records (stdout proc) [] Hdec) as [logs ->].
    reflexivity.
  - unfold _run_proc. rewrite Hargs, bind_lift_Returns.
    rewrite Hpopen, bind_lift_Returns, Herr.
    destruct (read_lines_records (stdout proc) [] Hdec) as [logs ->].
    apply Z.eqb_neq in Hrc. rewrite Hrc.
    exists ((DEBUG, "Running fping command") :: logs).
    reflexivity.
  - intros rc.
    rewrite (run_proc_result popen self args proc Hargs Hpopen).
    now rewrite (run_proc_result _ self args (exit_with rc proc) Hargs eq_refl).
Qed.

(** C7: when [_run_proc] returns and no record is left after the [None]
    entries are dropped, [probe] logs a warning and returns [None], not a
    message. *)
Theorem probe_no_data new_message self logs proc_data :
  _run_proc py_float py_sum popen self = (logs, Returns proc_data) ->
  filter is_not_None proc_data = [] ->
  probe py_float py_sum popen new_message self =
  (logs ++ [(WARNING, "No valid data returned from fping process.")],
   Returns None).
Proof.
  intros Hrun Hempty. unfold probe. rewrite Hrun.
  cbn [bind data]. rewrite Hempty. reflexivity.
Qed.

(** A message [probe] returns holds at least one record. *)
Lemma probe_message_has_data new_message self msg :
  result (probe py_float py_sum popen new_message self) = Returns (Some msg) ->
  truthy (data msg) = true.
Proof.
  unfold probe.
  destruct (_run_proc py_float py_sum popen self) as [logs [proc_data|e]];
    cbn [bind data]; [|discriminate].
  destruct (truthy (filter is_not_None proc_data)) eqn:E.
  - unfold result. simpl. intros H. injection H as <-. exact E.
  - discriminate.
Qed.

(** C9: the detected version is 5 when the captured output holds the
    marker and 4 otherwise; [FileNotFoundError] is logged as critical and
    raised again; any other exception is logged as an error and gives 4. *)
Theorem detect_fping_version_cases self :
  (forall proc out,
     popen [command self; "-v"] = Returns proc ->
     communicate_decode (stdout proc) (stdout_error proc) = Returns out ->
     detect_fping_version popen self =
       ([], Returns (if contains "fping: Version 5" out then 5 else 4)%Z)) /\
  (forall e,
     popen [command self; "-v"] = Raises e
     \/ (exists proc, popen [command self; "-v"] = Returns proc /\
           communicate_decode (stdout proc) (stdout_error proc) = Raises e) ->
     detect_fping_version popen self =
       match e with
       | FileNotFoundError =>
           ([(CRITICAL, "fping command not found.")], Raises FileNotFoundError)
       | _ =>
           ([(ERROR, "Failed to detect fping version. Defaulting to version 4.")],
            Returns 4%Z)
       end).
Proof.
  split.
  - intros proc out Hp Hc. unfold detect_fping_version.
    rewrite Hp, bind_lift_Returns, Hc, bind_lift_Returns.
    destruct (contains "fping: Version 5" out); reflexivity.
  - intros e [Hp|(proc & Hp & Hc)]; unfold detect_fping_version.
    + rewrite Hp. destruct e; reflexivity.
    + rewrite Hp, bind_lift_Returns, Hc. destruct e; reflexivity.
Qed.

End ProbeFacts.

(** ** The decimal float parser *)

Section DecimalFloatFacts.

Import DecimalFloat.

Lemma all_chars_app p a b :
  all_chars p (a ++ b) = all_chars p a && all_chars p b.
Proof.
  induction a as [|c a IH]; simpl; [reflexivity|].
  now rewrite IH, andb_assoc.
Qed.

Lemma all_chars_impl (p q : ascii -> bool) s :
  (forall c, p c = true -> q c = true) ->
  all_chars p s = true -> all_chars q s = true.
Proof.
  intros Hpq. induction s as [|c s IH]; simpl; [reflexivity|].
  intros H. apply andb_prop in H as [Hc Hs].
  now rewrite (Hpq c Hc), IH.
Qed.

Lemma float_space_is_space c : is_float_space c = true -> is_space c = true.
Proof.
  destruct c as [[] [] [] [] [] [] [] []]; vm_compute; congruence.
Qed.

Lemma digit_not_space c d : digit_of c = Some d -> not_space c = true.
Proof.
  destruct c as [[] [] [] [] [] [] [] []]; vm_compute; congruence.
Qed.

Lemma digits_not_space s : forall acc n,
  digits s acc = Some n -> all_chars not_space s = true.
Proof.
  induction s as [|c s IH]; intros acc n; simpl; [reflexivity|].
  destruct (digit_of c) as [d|] eqn:E; [|discriminate].
  intros H. rewrite (digit_not_space c d E). simpl. eapply IH, H.
Qed.

Lemma unsigned_not_space w x :
  unsigned_decimal w = Some x -> all_chars not_space w = true /\ w <> "".
Proof.
  unfold unsigned_decimal.
  destruct (partition "." w) as [[a b]|] eqn:P.
  - apply partition_append in P. subst w.
    destruct (is_empty a && is_empty b); [discriminate|].
    destruct (digits a 0) as [m|] eqn:Da; [|discriminate].
    destruct (digits b 0) as [n|] eqn:Db; [|discriminate].
    intros _. split.
    + rewrite all_chars_app. simpl.
      now rewrite (digits_not_space a _ _ Da), (digits_not_space b _ _ Db).
    + destruct a; discriminate.
  - destruct w as [|c w]; [discriminate|]. cbn [is_empty].
    destruct (digits (String c w) 0) as [n|] eqn:D; [|discriminate].
    intros _. split; [eapply digits_not_space, D | discriminate].
Qed.

Lemma unsigned_float_not_space w x :
  unsigned_float w = Some x -> all_chars not_space w = true /\ w <> "".
Proof.
  unfold unsigned_float.
  destruct (String.eqb_spec w "nan") as [->|_].
  - intros _. split; [reflexivity | discriminate].
  - destruct (String.eqb_spec w "inf") as [->|_].
    + intros _. split; [reflexivity | discriminate].
    + destruct (String.eqb_spec w "infinity") as [->|_].
      * intros _. split; [reflexivity | discriminate].
      * apply unsigned_not_space.
Qed.

Lemma signed_not_space w x :
  signed_decimal w = Some x -> all_chars not_space w = true /\ w <> "".
Proof.
  destruct w as [|c r]; [discriminate|]. cbn [signed_decimal].
  destruct (Ascii.eqb_spec c "+") as [->|_].
  - intros H. destruct (unsigned_float_not_space r x H) as [Hr _].
    split; [simpl; now rewrite Hr | discriminate].
  - destruct (Ascii.eqb_spec c "-") as [->|_].
    + destruct (unsigned_float r) as [y|] eqn:U; [|discriminate].
      intros _. destruct (unsigned_float_not_space r y U) as [Hr _].
      split; [simpl; now rewrite Hr | discriminate].
    + intros H. split; [|discriminate].
      now destruct (unsigned_float_not_space _ x H).
Qed.

Lemma split_ws_word w :
  all_chars not_space w = true -> w <> "" -> split_ws w = [w].
Proof.
  intros Hw Hne. unfold split_ws. rewrite pieces_word by exact Hw.
  destruct w; [congruence | reflexivity].
Qed.

(** The decimal parser takes one word and gives the value of the word. *)
Lemma decimal_float_word s x :
  decimal_float s = Some x ->
  exists w, split_ws s = [w] /\ decimal_float w = Some x.
Proof.
  unfold decimal_float. intros H.
  destruct (signed_not_space _ x H) as [Hw Hne].
  exists (strip_by is_float_space s). split.
  - unfold split_ws at 1.
    rewrite <- (words_strip is_space is_float_space float_space_is_space s).
    now apply split_ws_word.
  - assert (Hq : all_chars (fun c => negb (is_float_space c))
                           (strip_by is_float_space s) = true).
    { apply (all_chars_impl not_space); [|exact Hw].
      intros c Hc. unfold not_space in Hc.
      destruct (is_float_space c) eqn:E; [|reflexivity].
      now rewrite (float_space_is_space c E) in Hc. }
    unfold strip_by at 1.
    now rewrite (rstrip_word _ _ Hq), (lstrip_word _ _ Hq).
Qed.

Lemma decimal_float_sentinel : decimal_float "-" = None.
Proof. reflexivity. Qed.

Lemma decimal_float_colon : decimal_float ":" = None.
Proof. reflexivity. Qed.

End DecimalFloatFacts.

(** ** Concrete runs *)

Import Examples DecimalFloat.

Lemma parse_verbose_loss_invariant_witness :
  result (parse_verbose decimal_float naive_sum line_ok) = Returns (Some record_ok) /\
  exists cnt loss,
    dict_get "cnt" record_ok = Some (VInt cnt) /\
    dict_get "loss" record_ok = Some (VFloat loss) /\
    cnt = len (split_ws "1.2 - 3.4") /\
    (0 <= loss)%Q /\ (loss <= 1)%Q.
Proof.
  assert (H : result (parse_verbose decimal_float naive_sum line_ok)
              = Returns (Some record_ok)) by reflexivity.
  split; [exact H|].
  destruct (parse_verbose_loss_invariant decimal_float naive_sum
              decimal_float_word decimal_float_sentinel line_ok record_ok H)
    as (host & rhs & cnt & samples & loss & Hp & Hc & _ & Hl & Hn & _ & _ & _ & _ & H0 & H1).
  exists cnt, loss.
  assert (rhs = "1.2 - 3.4") by (vm_compute in Hp; congruence).
  subst rhs. auto.
Defined.

Lemma parse_verbose_count_positive_witness :
  result (parse_verbose decimal_float naive_sum line_ok) = Returns (Some record_ok) /\
  exists cnt samples,
    dict_get "cnt" record_ok = Some (VInt cnt) /\
    dict_get "data" record_ok = Some (VList samples) /\
    (1 <= cnt)%Z /\ (len samples <= cnt)%Z.
Proof.
  assert (H : result (parse_verbose decimal_float naive_sum line_ok)
              = Returns (Some record_ok)) by reflexivity.
  split; [exact H|].
  destruct (parse_verbose_count_positive decimal_float naive_sum line_ok
              record_ok H)
    as (cnt & samples & Hc & Hd & H1 & H2 & _).
  exists cnt, samples. auto.
Defined.

Lemma parse_verbose_stats_witness :
  result (parse_verbose decimal_float naive_sum line_ok) = Returns (Some record_ok) /\
  ordered [sample "1.2"; sample "3.4"] = true /\
  exists mn mx,
    dict_get "min" record_ok = Some (VDouble mn) /\
    dict_get "max" record_ok = Some (VDouble mx) /\
    In mn [sample "1.2"; sample "3.4"] /\
    In mx [sample "1.2"; sample "3.4"] /\
    PrimFloat.leb mn mx = true.
Proof.
  assert (H : result (parse_verbose decimal_float naive_sum line_ok)
              = Returns (Some record_ok)) by reflexivity.
  assert (Hord : ordered [sample "1.2"; sample "3.4"] = true) by reflexivity.
  split; [exact H|]. split; [exact Hord|].
  destruct (parse_verbose_stats decimal_float naive_sum line_ok record_ok H)
    as (host & rhs & samples & _ & _ & Hd & Hstats & _).
  assert (Hs : samples = [sample "1.2"; sample "3.4"]).
  { change (Some (VList [sample "1.2"; sample "3.4"]) = Some (VList samples))
      in Hd. now injection Hd. }
  subst samples.
  destruct (Hstats ltac:(discriminate))
    as (mn & mx & avg & lst & Hmn & Hmx & _ & _ & Imn & Imx & Hleast & _).
  exists mn, mx.
  repeat (split; [assumption|]).
  now apply (proj1 (Hleast Hord)).
Defined.

(** C4, as stated, fails.  With a nan among the samples [min] is the nan,
    which is not at most the other sample; and the float quotient [avg] of
    three times 0.1 is greater than [max], which no arithmetic mean is. *)
Lemma parse_verbose_min_of_nan :
  (exists rv mn,
     result (parse_verbose decimal_float naive_sum line_nan) = Returns (Some rv) /\
     dict_get "data" rv = Some (VList [PrimFloat.nan; PrimFloat.one]) /\
     dict_get "min" rv = Some (VDouble mn) /\
     PrimFloat.leb mn PrimFloat.one = false) /\
  (exists rv mx avg,
     result (parse_verbose decimal_float naive_sum line_tenths) = Returns (Some rv) /\
     dict_get "data" rv = Some (VList [sample "0.1"; sample "0.1"; sample "0.1"]) /\
     dict_get "max" rv = Some (VDouble mx) /\
     dict_get "avg" rv = Some (VDouble avg) /\
     PrimFloat.ltb mx avg = true).
Proof.
  split.
  - eexists _, _. split; [vm_compute; reflexivity|].
    repeat split; reflexivity.
  - eexists _, _, _. split; [vm_compute; reflexivity|].
    repeat split; reflexivity.
Qed.

Lemma parse_verbose_splits_on_space_witness :
  contains " : " line_two_spaces = true /\
  result (parse_verbose decimal_float naive_sum line_two_spaces) =
  Returns (Design.line_parser_with decimal_float naive_sum (split " ")
             line_two_spaces).
Proof.
  split; [reflexivity|].
  apply (parse_verbose_splits_on_space decimal_float naive_sum
           decimal_float_colon).
  reflexivity.
Defined.

(** C2, as stated, fails: with two spaces between two tokens the code
    finds an empty token and returns [None], where splitting on whitespace
    gives a record of two probes. *)
Lemma parse_verbose_not_whitespace_split :
  contains " : " line_two_spaces = true /\
  result (parse_verbose decimal_float naive_sum line_two_spaces) = Returns None /\
  Design.line_parser decimal_float naive_sum line_two_spaces =
    Some [ ("host", VStr "h"); ("cnt", VInt 2); ("loss", VFloat (2 # 2));
           ("data", VList []) ] /\
  result (parse_verbose decimal_float naive_sum line_two_spaces) <>
    Returns (Design.line_parser decimal_float naive_sum line_two_spaces).
Proof.
  split; [reflexivity|]. split; [reflexivity|]. split; [reflexivity|].
  vm_compute. discriminate.
Qed.

Lemma run_args_shape_witness :
  hosts_args self_v5 = Returns ["a"; "b"; "c"] /\
  exists flags,
    run_args self_v5 = Returns ("fping" :: flags ++ ["a"; "b"; "c"]) /\
    In "-q" flags.
Proof.
  assert (H : hosts_args self_v5 = Returns ["a"; "b"; "c"]) by reflexivity.
  split; [exact H|].
  destruct (run_args_shape self_v5 ["a"; "b"; "c"] H)
    as (flags & Hrun & _ & _ & _ & _ & Hq).
  exists flags. split; [exact Hrun|]. apply Hq. reflexivity.
Defined.

Lemma hosts_args_first_seen_witness :
  map Design.address_of (hosts self_v5) = map Some ["a"; "b"; "a"; "c"] /\
  hosts_args self_v5 = Returns ["a"; "b"; "c"].
Proof.
  assert (H : map Design.address_of (hosts self_v5)
              = map Some ["a"; "b"; "a"; "c"]) by reflexivity.
  split; [exact H|].
  destruct (hosts_args_first_seen self_v5 ["a"; "b"; "a"; "c"] H)
    as (resolved & Hrun & -> & _).
  exact Hrun.
Defined.

Lemma probe_no_data_witness :
  probe decimal_float naive_sum popen_junk [] self_v5 =
  ([ (DEBUG, "Running fping command");
     (DEBUG, "usage: fping [options] [targets...]");
     (ERROR, "Failed to parse fping line");
     (WARNING, "No valid data returned from fping process.") ],
   Returns None).
Proof.
  apply (probe_no_data decimal_float naive_sum popen_junk [] self_v5
           [ (DEBUG, "Running fping command");
             (DEBUG, "usage: fping [options] [targets...]");
             (ERROR, "Failed to parse fping line") ] []);
    reflexivity.
Defined.

Lemma run_proc_nonzero_exit_witness :
  result (_run_proc decimal_float naive_sum (popen_lines 1) self_v5) =
  Returns [Some record_ok].
Proof.
  apply (proj1 (run_proc_nonzero_exit decimal_float naive_sum (popen_lines 1)
           self_v5
           ["fping"; "-u"; "-C5"; "-p20"; "-e"; "-q"; "a"; "b"; "c"]
           {| stdout := [Utf8 line_ok; Utf8 line_two_spaces];
              stdout_error := None; returncode := 1 |}
           eq_refl eq_refl eq_refl eq_refl ltac:(discriminate))).
Defined.

(** C8, as stated, fails: the process exits with code 1 after a line that
    parses and a line that is not valid UTF-8; the record of the first line
    is dropped, the empty list is returned and no exit warning is logged. *)
Lemma run_proc_nonzero_exit_discards :
  exists args proc,
    run_args self_v5 = Returns args /\
    popen_bad_bytes_exit1 args = Returns proc /\
    returncode proc = 1%Z /\
    parsed_records decimal_float naive_sum (stdout proc) = [Some record_ok] /\
    _run_proc decimal_float naive_sum popen_bad_bytes_exit1 self_v5 =
      ([ (DEBUG, "Running fping command");
         (DEBUG, line_ok);
         (ERROR, "Error running or processing fping") ],
       Returns []).
Proof.
  eexists _, _. split; [reflexivity|]. split; [reflexivity|].
  repeat split; reflexivity.
Qed.

Lemma detect_fping_version_cases_witness :
  detect_fping_version popen_version5 self_v5 = ([], Returns 5%Z).
Proof.
  apply (proj1 (detect_fping_version_cases popen_version5 self_v5)
           {| stdout := [Utf8 "fping: Version 5.1"];
              stdout_error := None; returncode := 0 |}
           "fping: Version 5.1");
    reflexivity.
Defined.

(** * More properties of the code *)

(** ** Trimming *)

Section StripFacts.

Variable p : ascii -> bool.

Lemma lstrip_head s c t : lstrip_by p s = String c t -> p c = false.
Proof.
  induction s as [|d s IH]; simpl; [discriminate|].
  destruct (p d) eqn:E; [exact IH|].
  intros H. injection H as <- _. exact E.
Qed.

Lemma lstrip_suffix s : exists a, s = (a ++ lstrip_by p s)%string.
Proof.
  induction s as [|d s [a IH]]; simpl.
  - now exists "".
  - destruct (p d).
    + exists (String d a). simpl. now rewrite <- IH.
    + now exists "".
Qed.

Lemma rstrip_last s : forall t c,
  rstrip_by p s = (t ++ String c "")%string -> p c = false.
Proof.
  induction s as [|d s IH]; intros t c; simpl.
  - destruct t; discriminate.
  - destruct (p d && is_empty (rstrip_by p s)) eqn:E.
    + destruct t; discriminate.
    + destruct t as [|e t]; simpl; intros H; injection H as -> Hr.
      * rewrite Hr in E. simpl in E. now rewrite andb_true_r in E.
      * now apply (IH t c).
Qed.

Lemma rstrip_fixed s :
  (forall t c, s = (t ++ String c "")%string -> p c = false) ->
  rstrip_by p s = s.
Proof.
  induction s as [|d s IH]; intros H; simpl; [reflexivity|].
  rewrite IH.
  - destruct s as [|e s]; simpl.
    + rewrite (H "" d eq_refl). reflexivity.
    + now rewrite andb_false_r.
  - intros t c ->. apply (H (String d t) c). reflexivity.
Qed.

Lemma lstrip_fixed s :
  (forall c t, s = String c t -> p c = false) -> lstrip_by p s = s.
Proof.
  destruct s as [|c s]; simpl; [reflexivity|].
  intros H. now rewrite (H c s eq_refl).
Qed.

(** What [strip] returns neither starts nor ends with a stripped
    character. *)
Lemma strip_by_ends s :
  (forall c t, strip_by p s = String c t -> p c = false) /\
  (forall t c, strip_by p s = (t ++ String c "")%string -> p c = false).
Proof.
  unfold strip_by. split.
  - intros c t. apply lstrip_head.
  - intros t c H.
    destruct (lstrip_suffix (rstrip_by p s)) as [a Ha].
    rewrite H in Ha. rewrite <- append_assoc in Ha.
    exact (rstrip_last s _ c Ha).
Qed.

Lemma strip_by_idempotent s : strip_by p (strip_by p s) = strip_by p s.
Proof.
  destruct (strip_by_ends s) as [Hl Hr].
  unfold strip_by at 1.
  rewrite (rstrip_fixed _ Hr). now apply lstrip_fixed.
Qed.

Lemma rstrip_snoc s c :
  p c = true -> rstrip_by p (s ++ String c "") = rstrip_by p s.
Proof.
  intros Hc. induction s as [|d s IH]; simpl.
  - now rewrite Hc.
  - now rewrite IH.
Qed.

End StripFacts.

(** ** The line parser, further *)

Section LineParserMore.

Variable py_float : string -> option float.
Variable py_sum : list float -> float.

(** The two-value unpacking of [line.split(" : ")], by first occurrences. *)
Lemma parse_verbose_try_partition line :
  parse_verbose_try py_float py_sum line =
  match partition " : " line with
  | None => Raises ValueError
  | Some (host, rest) =>
      match partition " : " rest with
      | None => parse_tokens py_float py_sum host (split " " (strip rest))
      | Some _ => Raises ValueError
      end
  end.
Proof.
  unfold parse_verbose_try.
  rewrite (split_partition " : " line) by discriminate.
  destruct (partition " : " line) as [[host rest]|]; [|reflexivity].
  rewrite (split_partition " : " rest) by discriminate.
  destruct (partition " : " rest) as [[a b]|]; [|reflexivity].
  pose proof (split_not_nil " : " b).
  destruct (split " : " b); [contradiction | reflexivity].
Qed.

(** X1: the parser returns a record exactly for the lines that
    [split(" : ")] cuts in two and whose tokens are all the sentinel or a
    number; one token that is neither rejects the whole line. *)
Theorem parse_verbose_accepts_iff line :
  (exists rv, result (parse_verbose py_float py_sum line) = Returns (Some rv)) <->
  (exists host pings,
     split " : " line = [host; pings] /\
     forallb (accepted py_float) (split " " (strip pings)) = true).
Proof.
  split.
  - intros [rv H].
    destruct (parse_verbose_Some py_float py_sum line rv H)
      as (host & pings & Hline & Hpings & Hacc & _).
    exists host, pings. split; [|exact Hacc].
    rewrite (split_partition " : " line), Hline by discriminate.
    now rewrite (split_partition " : " pings), Hpings by discriminate.
  - intros (host & pings & Hsplit & Hacc).
    rewrite parse_verbose_result. unfold parse_verbose_try.
    rewrite Hsplit, parse_tokens_eq, Hacc. eauto.
Qed.

(** X2: the host of a record is the text before the separator with the
    whitespace around it removed: it neither starts nor ends with a
    whitespace character, so trimming it again changes nothing. *)
Theorem parse_verbose_host_trimmed line rv :
  result (parse_verbose py_float py_sum line) = Returns (Some rv) ->
  exists lhs rhs h,
    partition " : " line = Some (lhs, rhs) /\
    dict_get "host" rv = Some (VStr h) /\
    h = strip lhs /\
    strip h = h /\
    (forall c t, h = String c t -> is_space c = false) /\
    (forall t c, h = (t ++ String c "")%string -> is_space c = false).
Proof.
  intros H.
  destruct (parse_verbose_Some py_float py_sum line rv H)
    as (lhs & rhs & Hline & _ & _ & ->).
  exists lhs, rhs, (strip lhs).
  split; [exact Hline|]. split; [reflexivity|]. split; [reflexivity|].
  split; [apply strip_by_idempotent|].
  apply strip_by_ends.
Qed.

Lemma filter_partition_length {A} (f : A -> bool) l :
  (length (filter f l) + length (filter (fun x => negb (f x)) l) = length l)%nat.
Proof.
  induction l as [|x l IH]; simpl; [reflexivity|].
  destruct (f x); simpl; lia.
Qed.

Lemma Qdiv_inject_zero a c :
  (0 < c)%Z -> (inject_Z a / inject_Z c == 0)%Q -> a = 0%Z.
Proof.
  intros Hc H.
  assert (Hnz : ~ (inject_Z c == 0)%Q).
  { change 0%Q with (inject_Z 0). rewrite inject_Z_injective. lia. }
  apply inject_Z_injective. change (inject_Z 0) with 0%Q.
  rewrite <- (Qmult_div_r (inject_Z a) (inject_Z c) Hnz), H.
  apply Qmult_0_r.
Qed.

Lemma Qdiv_inject_one a c :
  (0 < c)%Z -> (inject_Z a / inject_Z c == 1)%Q -> a = c.
Proof.
  intros Hc H.
  assert (Hnz : ~ (inject_Z c == 0)%Q).
  { change 0%Q with (inject_Z 0). rewrite inject_Z_injective. lia. }
  apply inject_Z_injective.
  rewrite <- (Qmult_div_r (inject_Z a) (inject_Z c) Hnz), H.
  apply Qmult_1_r.
Qed.

Lemma Qdiv_inject_same c : (0 < c)%Z -> (inject_Z c / inject_Z c == 1)%Q.
Proof.
  intros Hc. unfold Qdiv. apply Qmult_inv_r.
  change 0%Q with (inject_Z 0). rewrite inject_Z_injective. lia.
Qed.

(** X3: the loss of a record is the share of sentinel tokens among the
    tokens: the samples and the sentinels add up to [cnt], [loss] is 0
    exactly when no token is the sentinel and 1 exactly when [data] is
    empty. *)
Theorem parse_verbose_loss_counts_sentinels line rv :
  result (parse_verbose py_float py_sum line) = Returns (Some rv) ->
  exists host rhs cnt loss samples lost,
    partition " : " line = Some (host, rhs) /\
    dict_get "cnt" rv = Some (VInt cnt) /\
    dict_get "loss" rv = Some (VFloat loss) /\
    dict_get "data" rv = Some (VList samples) /\
    lost = len (filter is_sentinel (split " " (strip rhs))) /\
    (len samples + lost = cnt)%Z /\
    (loss == inject_Z lost / inject_Z cnt)%Q /\
    ((loss == 0)%Q <-> lost = 0%Z) /\
    ((loss == 1)%Q <-> samples = []).
Proof.
  intros H.
  destruct (parse_verbose_Some py_float py_sum line rv H)
    as (host & rhs & Hline & _ & Hacc & ->).
  set (toks := split " " (strip rhs)) in *.
  set (samples := samples_of py_float toks).
  assert (Hpos : (0 < len toks)%Z).
  { unfold len, toks. pose proof (split_not_nil " " (strip rhs)).
    destruct (split " " (strip rhs)); [contradiction | simpl; lia]. }
  assert (Hsum : (len samples + len (filter is_sentinel toks) = len toks)%Z).
  { unfold len, samples. rewrite (samples_of_length py_float toks Hacc).
    pose proof (filter_partition_length is_sentinel toks). lia. }
  assert (Hloss : (loss_of (len toks) samples
                   == inject_Z (len (filter is_sentinel toks)) / inject_Z (len toks))%Q).
  { rewrite (loss_of_eq (len toks) samples Hpos).
    now replace (len toks - len samples)%Z
      with (len (filter is_sentinel toks)) by lia. }
  exists host, rhs, (len toks), (loss_of (len toks) samples), samples,
         (len (filter is_sentinel toks)).
  split; [exact Hline|].
  split; [reflexivity|]. split; [reflexivity|]. split; [reflexivity|].
  split; [reflexivity|]. split; [exact Hsum|]. split; [exact Hloss|].
  split; split.
  - intros H0. rewrite Hloss in H0. now apply (Qdiv_inject_zero _ _ Hpos).
  - intros H0. rewrite Hloss, H0. unfold Qdiv. apply Qmult_0_l.
  - intros H1. rewrite Hloss in H1.
    apply (Qdiv_inject_one _ _ Hpos) in H1.
    assert (length samples = 0%nat) by (unfold len in *; lia).
    now destruct samples.
  - intros Hs. rewrite Hloss.
    replace (len (filter is_sentinel toks)) with (len toks).
    + now apply Qdiv_inject_same.
    + rewrite Hs in Hsum. unfold len in *. simpl in Hsum. lia.
Qed.

End LineParserMore.

Section LineParserStats.

Variable py_float : string -> option float.
Variable py_sum : list float -> float.

Lemma samples_of_not_sentinel toks :
  samples_of py_float (filter not_sentinel toks) = samples_of py_float toks.
Proof.
  induction toks as [|t toks IH]; [reflexivity|].
  cbn [filter]. unfold not_sentinel at 1, is_sentinel.
  destruct (String.eqb t "-") eqn:E; cbn [negb].
  - rewrite IH. unfold samples_of. simpl. now rewrite E.
  - unfold samples_of in *. simpl. now rewrite IH.
Qed.

(** X5: sentinel tokens change [cnt] and [loss] only.  Two lines that
    parse and hold the same numeric tokens in the same order give the same
    [data], [min], [max], [avg] and [last], wherever their sentinels
    stand; [last] is the last answer, also when later probes were lost. *)
Theorem parse_verbose_stats_ignore_sentinels line1 line2 rv1 rv2 h1 r1 h2 r2 :
  result (parse_verbose py_float py_sum line1) = Returns (Some rv1) ->
  result (parse_verbose py_float py_sum line2) = Returns (Some rv2) ->
  partition " : " line1 = Some (h1, r1) ->
  partition " : " line2 = Some (h2, r2) ->
  filter not_sentinel (split " " (strip r1)) =
  filter not_sentinel (split " " (strip r2)) ->
  dict_get "data" rv1 = dict_get "data" rv2 /\
  dict_get "min" rv1 = dict_get "min" rv2 /\
  dict_get "max" rv1 = dict_get "max" rv2 /\
  dict_get "avg" rv1 = dict_get "avg" rv2 /\
  dict_get "last" rv1 = dict_get "last" rv2.
Proof.
  intros H1 H2 P1 P2 Hsame.
  destruct (parse_verbose_Some py_float py_sum line1 rv1 H1)
    as (h1' & r1' & P1' & _ & _ & ->).
  destruct (parse_verbose_Some py_float py_sum line2 rv2 H2)
    as (h2' & r2' & P2' & _ & _ & ->).
  rewrite P1 in P1'. injection P1' as <- <-.
  rewrite P2 in P2'. injection P2' as <- <-.
  rewrite <- (samples_of_not_sentinel (split " " (strip r1))).
  rewrite <- (samples_of_not_sentinel (split " " (strip r2))).
  rewrite Hsame.
  repeat split; reflexivity.
Qed.

(** Appending a whitespace character other than the space cannot make or
    break a separator. *)
Lemma prefix_sep_snoc s c :
  is_space c = true -> c <> " "%char ->
  prefix " : " (s ++ String c "") = prefix " : " s.
Proof.
  intros Hc Hne.
  destruct s as [|a [|b [|d s]]]; cbn [append prefix].
  - destruct (ascii_dec " " c); [congruence | reflexivity].
  - destruct (ascii_dec " " a); [|reflexivity].
    destruct (ascii_dec ":" c) as [<-|]; [discriminate | reflexivity].
  - destruct (ascii_dec " " a); [|reflexivity].
    destruct (ascii_dec ":" b); [|reflexivity].
    destruct (ascii_dec " " c); [congruence | reflexivity].
  - destruct (ascii_dec " " a); [|reflexivity].
    destruct (ascii_dec ":" b); [|reflexivity].
    destruct (ascii_dec " " d); [|reflexivity].
    now destruct s.
Qed.

Lemma drop_prefix_app sep : forall s t,
  prefix sep s = true ->
  drop (String.length sep) (s ++ t) = (drop (String.length sep) s ++ t)%string.
Proof.
  induction sep as [|a sep IH]; intros s t H; [reflexivity|].
  destruct s as [|b s]; [discriminate|].
  cbn [prefix] in H. destruct (ascii_dec a b); [|discriminate].
  cbn [String.length drop append]. now apply IH.
Qed.

Lemma partition_sep_snoc s c :
  is_space c = true -> c <> " "%char ->
  partition " : " (s ++ String c "") =
  match partition " : " s with
  | Some (a, b) => Some (a, (b ++ String c "")%string)
  | None => None
  end.
Proof.
  intros Hc Hne. induction s as [|d s IH].
  - cbn [append partition prefix].
    destruct (ascii_dec " " c); [congruence | reflexivity].
  - change (String d s ++ String c "")%string
      with (String d (s ++ String c "")).
    cbn [partition].
    change (String d (s ++ String c ""))
      with (String d s ++ String c "")%string at 1.
    rewrite (prefix_sep_snoc (String d s) c Hc Hne).
    destruct (prefix " : " (String d s)) eqn:Hp.
    + change (String d (s ++ String c ""))
        with (String d s ++ String c "")%string.
      now rewrite (drop_prefix_app " : " (String d s) (String c "") Hp).
    + rewrite IH. destruct (partition " : " s) as [[a b]|]; reflexivity.
Qed.

(** X6: a whitespace character other than the space at the end of the line
    (the line feed that [readline] leaves, a carriage return, a tab) does
    not change what the parser returns. *)
Theorem parse_verbose_trailing_whitespace line c :
  is_space c = true -> c <> " "%char ->
  result (parse_verbose py_float py_sum (line ++ String c "")) =
  result (parse_verbose py_float py_sum line).
Proof.
  intros Hc Hne. rewrite !parse_verbose_result. f_equal.
  rewrite !parse_verbose_try_partition.
  rewrite (partition_sep_snoc line c Hc Hne).
  destruct (partition " : " line) as [[host rest]|]; [|reflexivity].
  rewrite (partition_sep_snoc rest c Hc Hne).
  destruct (partition " : " rest) as [[a b]|]; [reflexivity|].
  unfold strip, strip_by. now rewrite (rstrip_snoc is_space rest c Hc).
Qed.

End LineParserStats.

(** X7: on the lines the parser accepts it agrees with the parser that
    splits the right side on whitespace: the stricter tokenizer of the code
    only rejects more lines, it never builds another record. *)
Theorem parse_verbose_agrees_with_whitespace_split
    (py_float : string -> option float)
    (py_sum : list float -> float)
    (float_word : forall s x, py_float s = Some x ->
                  exists w, split_ws s = [w] /\ py_float w = Some x)
    (float_sentinel : py_float "-" = None)
    line rv :
  result (parse_verbose py_float py_sum line) = Returns (Some rv) ->
  Design.line_parser py_float py_sum line = Some rv.
Proof.
  intros H.
  destruct (parse_verbose_Some py_float py_sum line rv H)
    as (host & rhs & Hline & _ & Hacc & ->).
  destruct (tokens_are_words py_float float_word float_sentinel rhs Hacc)
    as (Hlen & Hsam & Hwacc).
  unfold Design.line_parser, Design.line_parser_with, Design.record.
  rewrite Hline, split_ws_strip, Hwacc, Hsam.
  unfold len. now rewrite Hlen.
Qed.

(** ** The process runner and the probe cycle, further *)

Section RunnerMore.

Variable py_float : string -> option float.
Variable py_sum : list float -> float.

Lemma parse_verbose_levels line :
  Forall debug_or_error (logged (parse_verbose py_float py_sum line)).
Proof.
  unfold parse_verbose, logged.
  destruct (parse_verbose_try py_float py_sum line); simpl;
    repeat first [ apply Forall_nil
                 | apply Forall_cons; [unfold debug_or_error; simpl; auto|] ].
Qed.

(** What the loop over the pipe keeps: what it returns extends what it
    started from by records of lines of the pipe, at most one per line, and
    it logs at the levels of the parser only. *)
Lemma read_lines_inv out err : forall data0 l r,
  read_lines py_float py_sum out err data0 = (l, r) ->
  Forall debug_or_error l /\
  forall data, r = Returns data ->
    exists extra,
      data = data0 ++ extra /\
      (length extra <= length out)%nat /\
      forall d, In d extra ->
        exists s rv, d = Some rv /\ In (Utf8 s) out /\
                     result (parse_verbose py_float py_sum s) = Returns (Some rv).
Proof.
  induction out as [|b out IH]; intros data0 l r H.
  - cbn [read_lines] in H. destruct err as [e|].
    + injection H as <- <-. split; [constructor|]. discriminate.
    + injection H as <- <-. split; [constructor|].
      intros data E. injection E as <-. exists [].
      rewrite app_nil_r. repeat split; auto. intros d [].
  - cbn [read_lines] in H. destruct b as [s|]; cbn [decode] in H.
    + rewrite bind_lift_Returns in H.
      pose proof (parse_verbose_levels s) as Hlv.
      destruct (parse_verbose_returns py_float py_sum s) as (pr & Hr).
      destruct (parse_verbose py_float py_sum s) as [l1 r1] eqn:Hpv.
      unfold logged in Hlv. unfold result in Hr. simpl in Hlv, Hr. subst r1.
      cbn [bind] in H.
      assert (Htr : truthy_result pr = is_not_None pr).
      { apply (truthy_parsed py_float py_sum s). now rewrite Hpv. }
      rewrite Htr in H.
      destruct pr as [rv|]; cbn [is_not_None] in H.
      * destruct (read_lines py_float py_sum out err (data0 ++ [Some rv]))
          as [l2 r2] eqn:Hrest.
        injection H as <- <-.
        destruct (IH _ _ _ Hrest) as [Hl2 Hdata].
        split; [apply Forall_app; now split|].
        intros data E. destruct (Hdata data E) as (extra & -> & Hlen & Hin).
        exists (Some rv :: extra). rewrite <- app_assoc.
        split; [reflexivity|]. split; [simpl; lia|].
        intros d [<-|Hd].
        -- exists s, rv. split; [reflexivity|]. split; [now left|].
           unfold result. now rewrite Hpv.
        -- destruct (Hin d Hd) as (s' & rv' & ? & ? & ?).
           exists s', rv'. split; [assumption|]. split; [now right | assumption].
      * destruct (read_lines py_float py_sum out err data0) as [l2 r2] eqn:Hrest.
        injection H as <- <-.
        destruct (IH _ _ _ Hrest) as [Hl2 Hdata].
        split; [apply Forall_app; now split|].
        intros data E. destruct (Hdata data E) as (extra & -> & Hlen & Hin).
        exists extra. split; [reflexivity|]. split; [simpl; lia|].
        intros d Hd. destruct (Hin d Hd) as (s' & rv' & ? & ? & ?).
        exists s', rv'. split; [assumption|]. split; [now right | assumption].
    + rewrite bind_lift_Raises in H. injection H as <- <-.
      split; [constructor | discriminate].
Qed.

(** Bytes that do not decode stop the loop, whatever was parsed before. *)
Lemma read_lines_undecodable out err : forall data0,
  In NotUtf8 out ->
  result (read_lines py_float py_sum out err data0) = Raises UnicodeDecodeError.
Proof.
  induction out as [|b out IH]; intros data0 Hin; [destruct Hin|].
  cbn [read_lines]. destruct b as [s|]; cbn [decode].
  - destruct Hin as [Hin|Hin]; [discriminate|].
    rewrite bind_lift_Returns.
    destruct (parse_verbose py_float py_sum s) as [l1 [pr|e]] eqn:Hpv.
    + cbn [bind].
      destruct (truthy_result pr).
      * specialize (IH (data0 ++ [pr]) Hin).
        destruct (read_lines py_float py_sum out err (data0 ++ [pr])). exact IH.
      * specialize (IH data0 Hin).
        destruct (read_lines py_float py_sum out err data0). exact IH.
    + destruct (parse_verbose_returns py_float py_sum s) as (pr & Hr).
      unfold result in Hr. rewrite Hpv in Hr. discriminate.
  - reflexivity.
Qed.

End RunnerMore.

Section HostsMore.

Lemma row_get_raises k d e : row_get k d = Raises e -> e = KeyError.
Proof.
  induction d as [|[k' v] d IH]; simpl.
  - intros H. now injection H.
  - destruct (String.eqb k k'); [discriminate | exact IH].
Qed.

Lemma collect_hosts_missing rows : forall acc d,
  In (RowDict d) rows -> row_get "host" d = Raises KeyError ->
  collect_hosts rows acc = Raises KeyError.
Proof.
  induction rows as [|r rows IH]; intros acc d Hin Hd; [destruct Hin|].
  destruct Hin as [->|Hin]; cbn [collect_hosts].
  - now rewrite Hd.
  - destruct r as [a|d'].
    + now apply (IH _ d).
    + destruct (row_get "host" d') as [a|e] eqn:E; cbn [obind].
      * now apply (IH _ d).
      * now rewrite (row_get_raises _ _ _ E).
Qed.

(** X8: one dict entry without a ["host"] key makes [hosts_args] raise
    [KeyError]; [_run_proc] and [probe] then raise it too, before anything
    is logged and without launching the process. *)
Theorem missing_host_key_raises py_float py_sum popen new_message self d :
  In (RowDict d) (hosts self) ->
  row_get "host" d = Raises KeyError ->
  hosts_args self = Raises KeyError /\
  _run_proc py_float py_sum popen self = ([], Raises KeyError) /\
  probe py_float py_sum popen new_message self = ([], Raises KeyError).
Proof.
  intros Hin Hd.
  assert (H : hosts_args self = Raises KeyError).
  { unfold hosts_args. now rewrite (collect_hosts_missing _ [] d Hin Hd). }
  split; [exact H|].
  assert (Hrun : _run_proc py_float py_sum popen self = ([], Raises KeyError)).
  { unfold _run_proc, run_args. rewrite H. reflexivity. }
  split; [exact Hrun|].
  unfold probe. now rewrite Hrun.
Qed.

Lemma first_seen_NoDup_id l : NoDup l -> Design.first_seen l = l.
Proof.
  induction 1 as [|x l Hx Hl IH]; simpl; [reflexivity|].
  rewrite IH. f_equal. apply forallb_filter_id. apply forallb_forall.
  intros y Hy. apply negb_true_iff, String.eqb_neq. congruence.
Qed.

Lemma hosts_args_plain l self :
  hosts self = map RowStr l ->
  hosts_args self = Returns (Design.first_seen l).
Proof.
  intros H. unfold hosts_args.
  rewrite (collect_hosts_addresses (hosts self) l []).
  - simpl. rewrite dedupe_loop_first_seen. simpl.
    f_equal. apply forallb_filter_id. now apply forallb_forall.
  - rewrite H, map_map. reflexivity.
Qed.

(** X9: a host list without duplicates is returned as it is, and resolving
    what [hosts_args] returned gives the same list again. *)
Theorem hosts_args_fixed_point self addrs :
  map Design.address_of (hosts self) = map Some addrs ->
  (NoDup addrs -> hosts_args self = Returns addrs) /\
  (forall resolved,
     hosts_args self = Returns resolved ->
     hosts_args (with_hosts (map RowStr resolved) self) = Returns resolved).
Proof.
  intros H.
  assert (Hrun : hosts_args self = Returns (Design.first_seen addrs)).
  { unfold hosts_args. rewrite (collect_hosts_addresses _ addrs []) by exact H.
    simpl. rewrite dedupe_loop_first_seen. simpl.
    f_equal. apply forallb_filter_id. now apply forallb_forall. }
  split.
  - intros Hnd. now rewrite Hrun, first_seen_NoDup_id.
  - intros resolved Hres. rewrite Hrun in Hres. injection Hres as <-.
    rewrite (hosts_args_plain (Design.first_seen addrs)) by reflexivity.
    f_equal. apply first_seen_NoDup_id, first_seen_NoDup.
Qed.

End HostsMore.

Section RunnerCycle.

Variable py_float : string -> option float.
Variable py_sum : list float -> float.
Variable popen : popen_t.

(** X10: a launch that fails.  [FileNotFoundError] is logged as critical
    and raised again by [_run_proc] and by [probe]; any other exception is
    logged as an error, [_run_proc] returns the empty list and [probe]
    returns [None] after its warning. *)
Theorem probe_launch_failure new_message self args e :
  run_args self = Returns args ->
  popen args = Raises e ->
  probe py_float py_sum popen new_message self =
  match e with
  | FileNotFoundError =>
      ([ (DEBUG, "Running fping command");
         (CRITICAL, "fping command not found during execution.") ],
       Raises FileNotFoundError)
  | _ =>
      ([ (DEBUG, "Running fping command");
         (ERROR, "Error running or processing fping");
         (WARNING, "No valid data returned from fping process.") ],
       Returns None)
  end.
Proof.
  intros Hargs Hpopen. unfold probe, _run_proc.
  rewrite Hargs, bind_lift_Returns, Hpopen.
  destruct e; reflexivity.
Qed.

(** X11: one line that is not valid UTF-8 empties the cycle: [_run_proc]
    logs an error and returns the empty list, also when lines before it
    had parsed, and [probe] returns [None]. *)
Theorem run_proc_undecodable_line new_message self args proc :
  run_args self = Returns args ->
  popen args = Returns proc ->
  In NotUtf8 (stdout proc) ->
  result (_run_proc py_float py_sum popen self) = Returns [] /\
  In (ERROR, "Error running or processing fping")
     (logged (_run_proc py_float py_sum popen self)) /\
  result (probe py_float py_sum popen new_message self) = Returns None.
Proof.
  intros Hargs Hpopen Hbad.
  pose proof (read_lines_undecodable py_float py_sum (stdout proc)
                (stdout_error proc) [] Hbad) as Hread.
  assert (Hrun : exists l, _run_proc py_float py_sum popen self =
                           (l ++ [(ERROR, "Error running or processing fping")],
                            Returns [])).
  { unfold _run_proc.
    rewrite Hargs, bind_lift_Returns, Hpopen, bind_lift_Returns.
    destruct (read_lines py_float py_sum (stdout proc) (stdout_error proc) [])
      as [l r]. unfold result in Hread. simpl in Hread. subst r.
    exists ((DEBUG, "Running fping command") :: l). reflexivity. }
  destruct Hrun as [l Hrun].
  split; [now rewrite Hrun|].
  split.
  - rewrite Hrun. unfold logged. simpl. apply in_or_app. right. now left.
  - unfold probe. rewrite Hrun. reflexivity.
Qed.

(** X12: when the output is read to its end, [_run_proc] logs a warning
    exactly when the exit code is not 0; with exit code 0 nothing is
    logged above the levels of the parser. *)
Theorem run_proc_warning_iff self args proc :
  run_args self = Returns args ->
  popen args = Returns proc ->
  stdout_error proc = None ->
  forallb decodable (stdout proc) = true ->
  (In (WARNING, "fping process exited with code")
      (logged (_run_proc py_float py_sum popen self))
   <-> returncode proc <> 0%Z) /\
  (returncode proc = 0%Z ->
   Forall debug_or_error (logged (_run_proc py_float py_sum popen self))).
Proof.
  intros Hargs Hpopen Herr Hdec.
  destruct (read_lines_records py_float py_sum (stdout proc) [] Hdec) as [l Hread].
  destruct (read_lines_inv py_float py_sum (stdout proc) None [] _ _ Hread) as [Hl _].
  assert (Hrun : logged (_run_proc py_float py_sum popen self) =
                 (DEBUG, "Running fping command") :: l ++
                 (if negb (returncode proc =? 0)%Z
                  then [(WARNING, "fping process exited with code")]
                  else [])).
  { unfold _run_proc.
    rewrite Hargs, bind_lift_Returns, Hpopen, bind_lift_Returns, Herr, Hread.
    destruct (negb (returncode proc =? 0)%Z); reflexivity. }
  rewrite Hrun.
  assert (Hnot : ~ In (WARNING, "fping process exited with code") l).
  { intros Hin. rewrite Forall_forall in Hl.
    destruct (Hl _ Hin) as [E|E]; discriminate. }
  split; [split|].
  - intros [E|Hin]; [discriminate|].
    apply in_app_or in Hin as [Hin|Hin]; [contradiction|].
    destruct (Z.eqb_spec (returncode proc) 0); [destruct Hin | assumption].
  - intros Hrc. right. apply in_or_app. right.
    destruct (Z.eqb_spec (returncode proc) 0); [contradiction | now left].
  - intros ->. simpl. rewrite app_nil_r.
    constructor; [now left | exact Hl].
Qed.

(** Whatever the process does, what [_run_proc] returns holds records of
    lines of its output. *)
Lemma run_proc_records self args proc data :
  run_args self = Returns args ->
  popen args = Returns proc ->
  result (_run_proc py_float py_sum popen self) = Returns data ->
  (length data <= length (stdout proc))%nat /\
  forall d, In d data ->
    exists s rv, d = Some rv /\ In (Utf8 s) (stdout proc) /\
                 result (parse_verbose py_float py_sum s) = Returns (Some rv).
Proof.
  intros Hargs Hpopen.
  rewrite (run_proc_result py_float py_sum popen self args proc Hargs Hpopen).
  destruct (read_lines py_float py_sum (stdout proc) (stdout_error proc) [])
    as [l r] eqn:Hread.
  destruct (read_lines_inv py_float py_sum _ _ _ _ _ Hread) as [_ Hinv].
  unfold result. simpl.
  destruct r as [data'|e].
  - intros E. injection E as <-.
    destruct (Hinv data' eq_refl) as (extra & -> & Hlen & Hin).
    split; [exact Hlen | exact Hin].
  - destruct e; try discriminate; intros E; injection E as <-;
      (split; [simpl; lia | intros d []]).
Qed.

(** X13: every entry of the list [_run_proc] returns is the record of a
    line of the output, there are no more entries than lines, and no entry
    is [None]. *)
Theorem run_proc_returns_records_of_lines self args proc data :
  run_args self = Returns args ->
  popen args = Returns proc ->
  result (_run_proc py_float py_sum popen self) = Returns data ->
  (length data <= length (stdout proc))%nat /\
  (forall d, In d data ->
     exists s rv, d = Some rv /\ In (Utf8 s) (stdout proc) /\
                  result (parse_verbose py_float py_sum s) = Returns (Some rv)) /\
  filter is_not_None data = data.
Proof.
  intros Hargs Hpopen Hrun.
  destruct (run_proc_records self args proc data Hargs Hpopen Hrun)
    as [Hlen Hin].
  split; [exact Hlen|]. split; [exact Hin|].
  apply forallb_filter_id, forallb_forall. intros d Hd.
  destruct (Hin d Hd) as (s & rv & -> & _). reflexivity.
Qed.

Lemma run_proc_no_None self data :
  result (_run_proc py_float py_sum popen self) = Returns data ->
  filter is_not_None data = data.
Proof.
  intros Hrun.
  destruct (run_args self) as [args|e] eqn:Hargs.
  - destruct (popen args) as [proc|e] eqn:Hpopen.
    + destruct (run_proc_records self args proc data Hargs Hpopen Hrun)
        as [_ Hin].
      apply forallb_filter_id, forallb_forall. intros d Hd.
      destruct (Hin d Hd) as (s & rv & -> & _). reflexivity.
    + unfold _run_proc in Hrun.
      rewrite Hargs, bind_lift_Returns, Hpopen in Hrun.
      destruct e; try discriminate; injection Hrun as <-; reflexivity.
  - unfold _run_proc in Hrun. rewrite Hargs in Hrun. discriminate.
Qed.

(** X14: when [_run_proc] returns at least one record, [probe] returns the
    message of [new_message()] with exactly that list as its data, and logs
    nothing of its own. *)
Theorem probe_returns_records new_message self logs d ds :
  _run_proc py_float py_sum popen self = (logs, Returns (d :: ds)) ->
  probe py_float py_sum popen new_message self =
  (logs, Returns (Some {| envelope := new_message; data := d :: ds |})).
Proof.
  intros Hrun.
  assert (Hres : result (_run_proc py_float py_sum popen self) = Returns (d :: ds))
    by now rewrite Hrun.
  pose proof (run_proc_no_None self _ Hres) as Hid.
  unfold probe. rewrite Hrun. cbn [bind data].
  rewrite Hid. cbn [truthy]. unfold ret. now rewrite app_nil_r.
Qed.

End RunnerCycle.

(** ** Construction and set-up *)

Section Construction.

Lemma extend_hosts_flat groups : forall hs,
  extend_hosts groups hs = hs ++ flat_map (fun g => group_hosts (snd g)) groups.
Proof.
  induction groups as [|[name g] groups IH]; intros hs; simpl.
  - now rewrite app_nil_r.
  - now rewrite IH, app_assoc.
Qed.

Lemma flat_map_map {A B C} (f : A -> list B) (g : B -> C) l :
  map g (flat_map f l) = flat_map (fun x => map g (f x)) l.
Proof.
  induction l as [|x l IH]; simpl; [reflexivity|].
  now rewrite map_app, IH.
Qed.

(** X15: [init] replaces the host list by the hosts of the groups, group
    after group, a group without a ["hosts"] entry giving none; resolved
    after it, an address that several groups list is probed once, at its
    first place, and what the instance held before does not count. *)
Theorem init_then_hosts_args groups self addrs :
  flat_map group_addresses groups = map Some addrs ->
  hosts (init groups self) = flat_map (fun g => group_hosts (snd g)) groups /\
  hosts_args (init groups self) = Returns (Design.first_seen addrs) /\
  init groups (init groups self) = init groups self.
Proof.
  intros H.
  assert (Hhosts : hosts (init groups self)
                   = flat_map (fun g => group_hosts (snd g)) groups).
  { unfold init, with_hosts. cbn [hosts]. now rewrite extend_hosts_flat. }
  split; [exact Hhosts|]. split; [|reflexivity].
  unfold hosts_args.
  rewrite (collect_hosts_addresses _ addrs []).
  - simpl. rewrite dedupe_loop_first_seen. simpl.
    f_equal. apply forallb_filter_id. now apply forallb_forall.
  - rewrite Hhosts, flat_map_map. exact H.
Qed.

Lemma detect_fping_version_outcome popen self :
  exists l,
    detect_fping_version popen self = (l, Returns 4%Z) \/
    detect_fping_version popen self = (l, Returns 5%Z) \/
    detect_fping_version popen self = (l, Raises FileNotFoundError).
Proof.
  unfold detect_fping_version.
  destruct (popen [command self; "-v"]) as [proc|e].
  - rewrite bind_lift_Returns.
    destruct (communicate_decode (stdout proc) (stdout_error proc)) as [out|e].
    + rewrite bind_lift_Returns.
      destruct (contains "fping: Version 5" out); eexists;
        first [ left; reflexivity | right; left; reflexivity ].
    + destruct e; eexists;
        first [ left; reflexivity | right; right; reflexivity ].
  - destruct e; eexists;
      first [ left; reflexivity | right; right; reflexivity ].
Qed.

(** X16: [__init__] either raises [RuntimeError] (the command is not on
    the path), raises the [FileNotFoundError] of the detection, or gives an
    instance that holds the command, the count and the period of the
    config and whose version is 4 or 5; no other exception leaves it. *)
Theorem init_outcomes which popen config :
  (exists l, __init__ which popen config = (l, RaisesRuntimeError) /\
             not_found (which (cfg_command config)) = true) \/
  (exists l, __init__ which popen config = (l, DetectionRaises FileNotFoundError) /\
             not_found (which (cfg_command config)) = false) \/
  (exists l self,
     __init__ which popen config = (l, Constructed self) /\
     not_found (which (cfg_command config)) = false /\
     command self = cfg_command config /\
     count self = cfg_count config /\
     period self = cfg_period config /\
     (_fping_version self = 4%Z \/ _fping_version self = 5%Z)).
Proof.
  unfold __init__.
  destruct (not_found (which (cfg_command config))) eqn:W.
  - left. eauto.
  - right.
    match goal with
    | |- context [detect_fping_version popen ?s] =>
        destruct (detect_fping_version_outcome popen s) as [l [H|[H|H]]];
        rewrite H
    end.
    + right. do 2 eexists. repeat split; auto.
    + right. do 2 eexists. repeat split; auto.
    + left. eauto.
Qed.

(** When the command is not found on the path nothing is launched: the
    outcome is the same whatever the process collaborator would do. *)
Lemma init_command_missing which popen1 popen2 config :
  not_found (which (cfg_command config)) = true ->
  __init__ which popen1 config = __init__ which popen2 config /\
  snd (__init__ which popen1 config) = RaisesRuntimeError /\
  map fst (fst (__init__ which popen1 config)) = [CRITICAL].
Proof.
  intros H. unfold __init__. rewrite H. repeat split.
Qed.

Lemma prefix_append sub a b :
  prefix sub a = true -> prefix sub (a ++ b) = true.
Proof.
  revert a; induction sub as [|c sub IH]; intros a H.
  - now destruct (a ++ b)%string.
  - destruct a as [|d a]; [discriminate|].
    cbn [prefix append] in *. destruct (ascii_dec c d); [|discriminate].
    now apply IH.
Qed.

Lemma contains_append_l sub a b :
  contains sub a = true -> contains sub (a ++ b) = true.
Proof.
  induction a as [|d a IH]; cbn [contains append]; intros H.
  - rewrite orb_false_r in H.
    destruct sub; [|discriminate].
    destruct b; reflexivity.
  - apply orb_prop in H as [H|H].
    + change (String d (a ++ b)) with (String d a ++ b)%string.
      now rewrite (prefix_append _ _ b H).
    + rewrite (IH H). apply orb_true_r.
Qed.

Lemma contains_append_r sub a b :
  contains sub b = true -> contains sub (a ++ b) = true.
Proof.
  intros H. induction a as [|d a IH]; [exact H|].
  cbn [contains append]. rewrite IH. apply orb_true_r.
Qed.

Lemma communicate_decode_contains sub out : forall s,
  forallb decodable out = true ->
  In (Utf8 s) out -> contains sub s = true ->
  exists text, communicate_decode out None = Returns text /\
               contains sub text = true.
Proof.
  induction out as [|b out IH]; intros s Hdec Hin Hs; [destruct Hin|].
  cbn [forallb] in Hdec. apply andb_prop in Hdec as [Hb Hout].
  destruct b as [t|]; [|discriminate].
  cbn [communicate_decode decode].
  destruct Hin as [E|Hin].
  - injection E as ->.
    assert (Hall : exists text, communicate_decode out None = Returns text).
    { clear -Hout. induction out as [|b out IH]; [now exists ""|].
      cbn [forallb] in Hout. apply andb_prop in Hout as [Hb Hout].
      destruct b; [|discriminate]. destruct (IH Hout) as [text E].
      cbn [communicate_decode decode]. rewrite E. simpl. eauto. }
    destruct Hall as [text ->]. simpl. eexists. split; [reflexivity|].
    now apply contains_append_l.
  - destruct (IH s Hout Hin Hs) as (text & -> & Htext).
    simpl. eexists. split; [reflexivity|].
    now apply contains_append_r.
Qed.

(** X17: the marker is looked for in the whole output of [fping -v]: when
    the output decodes and one of its lines holds ["fping: Version 5"],
    wherever it stands, the detected version is 5. *)
Theorem detect_fping_version_marker_anywhere popen self proc s :
  popen [command self; "-v"] = Returns proc ->
  stdout_error proc = None ->
  forallb decodable (stdout proc) = true ->
  In (Utf8 s) (stdout proc) ->
  contains "fping: Version 5" s = true ->
  detect_fping_version popen self = ([], Returns 5%Z).
Proof.
  intros Hp Herr Hdec Hin Hs.
  destruct (communicate_decode_contains "fping: Version 5" _ s Hdec Hin Hs)
    as (text & Htext & Hc).
  unfold detect_fping_version.
  rewrite Hp, bind_lift_Returns, Herr, Htext, bind_lift_Returns, Hc.
  reflexivity.
Qed.

End Construction.

(** ** The command line *)

Section CommandLine.

Lemma format_d_round_trip n : parse_d (format_d n) = Some n.
Proof.
  unfold parse_d, format_d. rewrite NilZero.isi.
  - simpl. now rewrite DecimalZ.of_to.
  - destruct n as [|q|q]; simpl; try discriminate.
    intros E. injection E as E.
    now apply DecimalPos.Unsigned.to_uint_nonnil in E.
  - destruct n as [|q|q]; simpl; try discriminate.
    intros E. injection E as E.
    now apply DecimalPos.Unsigned.to_uint_nonnil in E.
Qed.

(** X18: the argument list carries the configuration without loss: its
    first entry is the command, its third is [-C] followed by digits that
    read back as the count, its fourth is [-p] followed by digits that read
    back as the period, also for a count or a period that is zero or
    negative. *)
Theorem run_args_encode_config self args :
  run_args self = Returns args ->
  nth_error args 0 = Some (command self) /\
  (exists digits, nth_error args 2 = Some ("-C" ++ digits)%string /\
                  parse_d digits = Some (count self)) /\
  (exists digits, nth_error args 3 = Some ("-p" ++ digits)%string /\
                  parse_d digits = Some (period self)).
Proof.
  unfold run_args. destruct (hosts_args self) as [resolved|e]; [|discriminate].
  intros H. cbn [obind] in H. injection H as <-.
  assert (Hnth : forall k tl, (k < 5)%nat ->
            nth_error ((if (_fping_version self =? 5)%Z
                        then [command self; "-u";
                              ("-C" ++ format_d (count self))%string;
                              ("-p" ++ format_d (period self))%string; "-e"]
                             ++ ["-q"]
                        else [command self; "-u";
                              ("-C" ++ format_d (count self))%string;
                              ("-p" ++ format_d (period self))%string; "-e"])
                       ++ tl) k =
            nth_error [command self; "-u";
                       ("-C" ++ format_d (count self))%string;
                       ("-p" ++ format_d (period self))%string; "-e"] k).
  { intros k tl Hk. destruct (_fping_version self =? 5)%Z.
    - rewrite <- app_assoc. apply nth_error_app1. simpl. lia.
    - apply nth_error_app1. simpl. lia. }
  rewrite !Hnth by lia. cbn [nth_error].
  split; [reflexivity|].
  split; eexists; (split; [reflexivity | apply format_d_round_trip]).
Qed.

End CommandLine.

(** ** Concrete runs of the further properties *)

Import Inputs.

Lemma parse_verbose_accepts_iff_witness :
  exists rv, result (parse_verbose decimal_float naive_sum line_padded) = Returns (Some rv).
Proof.
  apply (proj2 (parse_verbose_accepts_iff decimal_float naive_sum line_padded)).
  exists "10.0.0.1  ", "0.52 - 0.48 -". split; reflexivity.
Defined.

Lemma parse_verbose_host_trimmed_witness :
  result (parse_verbose decimal_float naive_sum line_padded) = Returns (Some record_padded) /\
  exists h, dict_get "host" record_padded = Some (VStr h) /\ strip h = h.
Proof.
  assert (H : result (parse_verbose decimal_float naive_sum line_padded)
              = Returns (Some record_padded)) by reflexivity.
  split; [exact H|].
  destruct (parse_verbose_host_trimmed decimal_float naive_sum line_padded record_padded H)
    as (lhs & rhs & h & _ & Hh & _ & Hs & _).
  exists h. auto.
Defined.

Lemma parse_verbose_loss_counts_sentinels_witness :
  result (parse_verbose decimal_float naive_sum line_padded) = Returns (Some record_padded) /\
  exists cnt samples lost,
    dict_get "cnt" record_padded = Some (VInt cnt) /\
    dict_get "data" record_padded = Some (VList samples) /\
    (len samples + lost = cnt)%Z.
Proof.
  assert (H : result (parse_verbose decimal_float naive_sum line_padded)
              = Returns (Some record_padded)) by reflexivity.
  split; [exact H|].
  destruct (parse_verbose_loss_counts_sentinels decimal_float naive_sum line_padded
              record_padded H)
    as (host & rhs & cnt & loss & samples & lost & _ & Hc & _ & Hd & _ & Hs & _).
  exists cnt, samples, lost. auto.
Defined.

Lemma parse_verbose_stats_ignore_sentinels_witness :
  dict_get "data" record_ok = dict_get "data" record_mixed /\
  dict_get "min" record_ok = dict_get "min" record_mixed /\
  dict_get "max" record_ok = dict_get "max" record_mixed /\
  dict_get "avg" record_ok = dict_get "avg" record_mixed /\
  dict_get "last" record_ok = dict_get "last" record_mixed.
Proof.
  apply (parse_verbose_stats_ignore_sentinels decimal_float naive_sum
           line_ok line_mixed record_ok record_mixed
           "host" "1.2 - 3.4" "host" "- 1.2 3.4 -");
    reflexivity.
Defined.

Lemma parse_verbose_trailing_whitespace_witness :
  result (parse_verbose decimal_float naive_sum (line_ok ++ LF)) =
  result (parse_verbose decimal_float naive_sum line_ok).
Proof.
  apply (parse_verbose_trailing_whitespace decimal_float naive_sum line_ok "010").
  - reflexivity.
  - discriminate.
Defined.

Lemma parse_verbose_agrees_with_whitespace_split_witness :
  result (parse_verbose decimal_float naive_sum line_mixed) = Returns (Some record_mixed) /\
  Design.line_parser decimal_float naive_sum line_mixed = Some record_mixed.
Proof.
  assert (H : result (parse_verbose decimal_float naive_sum line_mixed)
              = Returns (Some record_mixed)) by reflexivity.
  split; [exact H|].
  exact (parse_verbose_agrees_with_whitespace_split decimal_float naive_sum
           decimal_float_word decimal_float_sentinel line_mixed record_mixed H).
Defined.

Lemma missing_host_key_raises_witness :
  hosts_args self_v4 = Raises KeyError /\
  _run_proc decimal_float naive_sum popen_junk self_v4 = ([], Raises KeyError) /\
  probe decimal_float naive_sum popen_junk [] self_v4 = ([], Raises KeyError).
Proof.
  apply (missing_host_key_raises decimal_float naive_sum popen_junk [] self_v4
           [("name", "no address")]).
  - right. now left.
  - reflexivity.
Defined.

Lemma hosts_args_fixed_point_witness :
  hosts_args (with_hosts (map RowStr ["a"; "b"; "c"]) self_v5) =
  Returns ["a"; "b"; "c"].
Proof.
  apply (proj2 (hosts_args_fixed_point self_v5 ["a"; "b"; "a"; "c"] eq_refl)).
  reflexivity.
Defined.

Lemma probe_launch_failure_witness :
  probe decimal_float naive_sum popen_not_found [] self_v5 =
  ([ (DEBUG, "Running fping command");
     (CRITICAL, "fping command not found during execution.") ],
   Raises FileNotFoundError).
Proof.
  apply (probe_launch_failure decimal_float naive_sum popen_not_found [] self_v5
           ["fping"; "-u"; "-C5"; "-p20"; "-e"; "-q"; "a"; "b"; "c"]
           FileNotFoundError);
    reflexivity.
Defined.

Lemma run_proc_undecodable_line_witness :
  result (_run_proc decimal_float naive_sum popen_bad_bytes self_v5) = Returns [] /\
  In (ERROR, "Error running or processing fping")
     (logged (_run_proc decimal_float naive_sum popen_bad_bytes self_v5)) /\
  result (probe decimal_float naive_sum popen_bad_bytes [] self_v5) = Returns None.
Proof.
  apply (run_proc_undecodable_line decimal_float naive_sum popen_bad_bytes [] self_v5
           ["fping"; "-u"; "-C5"; "-p20"; "-e"; "-q"; "a"; "b"; "c"]
           {| stdout := [Utf8 "host : 1.2 - 3.4"; NotUtf8];
              stdout_error := None; returncode := 0 |});
    try reflexivity.
  right. now left.
Defined.

Lemma run_proc_warning_iff_witness :
  Forall debug_or_error (logged (_run_proc decimal_float naive_sum (popen_lines 0) self_v5)).
Proof.
  apply (proj2 (run_proc_warning_iff decimal_float naive_sum (popen_lines 0) self_v5
                  ["fping"; "-u"; "-C5"; "-p20"; "-e"; "-q"; "a"; "b"; "c"]
                  {| stdout := [Utf8 line_ok; Utf8 line_two_spaces];
                     stdout_error := None; returncode := 0 |}
                  eq_refl eq_refl eq_refl eq_refl)).
  reflexivity.
Defined.

Lemma run_proc_returns_records_of_lines_witness :
  filter is_not_None [Some record_ok] = [Some record_ok].
Proof.
  apply (run_proc_returns_records_of_lines decimal_float naive_sum (popen_lines 1) self_v5
           ["fping"; "-u"; "-C5"; "-p20"; "-e"; "-q"; "a"; "b"; "c"]
           {| stdout := [Utf8 line_ok; Utf8 line_two_spaces];
              stdout_error := None; returncode := 1 |}
           [Some record_ok] eq_refl eq_refl eq_refl).
Defined.

Lemma probe_returns_records_witness :
  result (probe decimal_float naive_sum (popen_lines 0) [("type", VStr "fping")] self_v5) =
  Returns (Some {| envelope := [("type", VStr "fping")];
                   data := [Some record_ok] |}).
Proof.
  rewrite (probe_returns_records decimal_float naive_sum (popen_lines 0)
             [("type", VStr "fping")] self_v5
             [ (DEBUG, "Running fping command"); (DEBUG, line_ok);
               (DEBUG, line_two_spaces); (ERROR, "Failed to parse fping line") ]
             (Some record_ok) [] eq_refl).
  reflexivity.
Defined.

Lemma init_then_hosts_args_witness :
  hosts_args (init groups_two self_v4) = Returns ["a"; "b"; "c"].
Proof.
  apply (init_then_hosts_args groups_two self_v4 ["a"; "b"; "b"; "c"]).
  reflexivity.
Defined.

Lemma detect_fping_version_marker_anywhere_witness :
  detect_fping_version
    (fun _ => Returns {| stdout := [ Utf8 "fping: Version 5.1";
                                     Utf8 "fping: comments to david@schweikert.ch" ];
                         stdout_error := None; returncode := 0 |})
    self_v4 = ([], Returns 5%Z).
Proof.
  apply (detect_fping_version_marker_anywhere _ self_v4
           {| stdout := [ Utf8 "fping: Version 5.1";
                          Utf8 "fping: comments to david@schweikert.ch" ];
              stdout_error := None; returncode := 0 |}
           "fping: Version 5.1");
    try reflexivity.
  now left.
Defined.

Lemma run_args_encode_config_witness :
  exists digits,
    nth_error ["fping"; "-u"; "-C5"; "-p20"; "-e"; "-q"; "a"; "b"; "c"] 2
      = Some ("-C" ++ digits)%string /\
    parse_d digits = Some 5%Z.
Proof.
  apply (run_args_encode_config self_v5
           ["fping"; "-u"; "-C5"; "-p20"; "-e"; "-q"; "a"; "b"; "c"]).
  reflexivity.
Defined.
